(** * compute_chi2.py: Hipparcos IAD log-probability

    Shallow embedding of [HipparcosLogProb] (its constructor's astrometric
    reconstruction and [compute_lnprob]).

    Numbers.  numpy float64 values are modelled by [ext]: a finite value is an
    exact real number, and the IEEE 754 special values [+inf], [-inf] and
    [NaN] are kept with the IEEE rules for them (inf - inf = NaN,
    0 * inf = NaN, x / 0 = +-inf or NaN, NaN <= 0 is false, ...).  Rounding
    and overflow are not modelled, nor is the sign of zero (x / 0 takes the
    sign of x).

    Arrays.  A 1-D numpy array is a [list ext]; elementwise numpy operations
    on arrays of one shape are [vzip]/[map]; a batch [samples] is its list
    of rows (a P x M array: all rows of one length M).

    Collaborators the repository calls but does not contain
    (orbitize's [calc_orbit], astropy's time conversion and Earth ephemeris)
    are Section variables: the results hold for every such function. *)

From Stdlib Require Import Reals Lra List String Arith Lia Bool.
Import ListNotations.
Open Scope R_scope.

(** ** float64 values *)

Inductive ext : Type :=
| Fin (r : R)
| PInf
| NInf
| NaN.

Definition is_finite (x : ext) : Prop :=
  match x with Fin _ => True | _ => False end.

(** [np.inf] with a sign chosen by a real number's sign (used for
    multiplication and division by infinities and by zero). *)
Definition inf_of_sign (s : R) : ext :=
  if Rlt_dec 0 s then PInf else if Rlt_dec s 0 then NInf else NaN.

Definition eopp (x : ext) : ext :=
  match x with
  | Fin a => Fin (- a)
  | PInf => NInf
  | NInf => PInf
  | NaN => NaN
  end.

Definition eadd (x y : ext) : ext :=
  match x, y with
  | Fin a, Fin b => Fin (a + b)
  | Fin _, PInf | PInf, Fin _ | PInf, PInf => PInf
  | Fin _, NInf | NInf, Fin _ | NInf, NInf => NInf
  | _, _ => NaN
  end.

Definition esub (x y : ext) : ext := eadd x (eopp y).

(** sign of an extended value, as a real in {-1, 0, 1} for infinities *)
Definition esign (x : ext) : R :=
  match x with
  | Fin a => a
  | PInf => 1
  | NInf => -1
  | NaN => 0
  end.

Definition emul (x y : ext) : ext :=
  match x, y with
  | Fin a, Fin b => Fin (a * b)
  | NaN, _ | _, NaN => NaN
  | _, _ => inf_of_sign (esign x * esign y)
  end.

Definition ediv (x y : ext) : ext :=
  match x, y with
  | Fin a, Fin b => if Req_dec_T b 0 then inf_of_sign a else Fin (a / b)
  | Fin _, (PInf | NInf) => Fin 0
  | (PInf | NInf), Fin b => inf_of_sign (esign x * (if Rlt_dec b 0 then -1 else 1))
  | _, _ => NaN
  end.

Definition eabs (x : ext) : ext :=
  match x with
  | Fin a => Fin (Rabs a)
  | PInf | NInf => PInf
  | NaN => NaN
  end.

(** [x ** 2] *)
Definition esq (x : ext) : ext := emul x x.

(** [x <= 0]: false on NaN *)
Definition ele0 (x : ext) : bool :=
  match x with
  | Fin a => if Rle_dec a 0 then true else false
  | NInf => true
  | PInf | NaN => false
  end.

(** [np.sin], [np.cos] (NaN on infinities) and [np.radians]. *)
Definition np_sin (x : ext) : ext :=
  match x with Fin a => Fin (sin a) | _ => NaN end.

Definition np_cos (x : ext) : ext :=
  match x with Fin a => Fin (cos a) | _ => NaN end.

Definition np_radians (x : ext) : ext := emul x (Fin (PI / 180)).

(** ** numpy 1-D arrays *)

(** elementwise binary operation on two arrays of one shape *)
Fixpoint vzip (f : ext -> ext -> ext) (xs ys : list ext) : list ext :=
  match xs, ys with
  | x :: xs', y :: ys' => f x y :: vzip f xs' ys'
  | _, _ => []
  end.

(** [np.sum] of a 1-D array *)
Definition np_sum (xs : list ext) : ext := fold_left eadd xs (Fin 0).

(** ** Python exceptions *)

Inductive py_exn : Type :=
| IndexError
| AxisError.

Inductive py (A : Type) : Type :=
| PyOk (a : A)
| PyRaise (e : py_exn).
Arguments PyOk {A} a.
Arguments PyRaise {A} e.

Definition py_bind {A B} (m : py A) (k : A -> py B) : py B :=
  match m with
  | PyOk a => k a
  | PyRaise e => PyRaise e
  end.

Notation "x <- m ;; k" := (py_bind m (fun x => k))
  (at level 61, m at next level, right associativity).

(** [xs[k]] *)
Definition getitem {A} (xs : list A) (k : nat) : py A :=
  match nth_error xs k with
  | Some a => PyOk a
  | None => PyRaise IndexError
  end.

(** [xs[k] = v]; raises on an index out of range *)
Fixpoint setitem {A} (xs : list A) (k : nat) (v : A) : py (list A) :=
  match xs, k with
  | [], _ => PyRaise IndexError
  | _ :: xs', O => PyOk (v :: xs')
  | x :: xs', S k' => r <- setitem xs' k' v ;; PyOk (x :: r)
  end.

(** [xs[idx] = v] for an integer index array [idx] *)
Fixpoint setitems {A} (xs : list A) (idx : list nat) (v : A) : py (list A) :=
  match idx with
  | [] => PyOk xs
  | k :: idx' => xs' <- setitem xs k v ;; setitems xs' idx' v
  end.

(** ** The [HipparcosLogProb] object *)

(** The row of the van Leeuwen catalogue ([I/311/hip2]) returned by the
    Vizier query; [RArad] and [DErad] are in degrees. *)
Record hip_cat_row : Type := {
  RArad : ext; e_RArad : ext; DErad : ext; e_DErad : ext;
  Plx : ext; e_Plx : ext; pmRA : ext; e_pmRA : ext; pmDE : ext; e_pmDE : ext
}.

(** One row of the IAD file, by column position ([iad[k]] is column [k]). *)
Record iad_row : Type := {
  iad_0 : ext;   (* unused *)
  iad_1 : ext;   (* time offset from 1991.25 [yr] *)
  iad_2 : ext;   (* unused *)
  iad_3 : ext;   (* cos(scan angle) *)
  iad_4 : ext;   (* sin(scan angle) *)
  iad_5 : ext;   (* abscissa residual [mas] *)
  iad_6 : ext    (* error on the abscissa residual [mas] *)
}.

Definition iad_default : iad_row :=
  {| iad_0 := NaN; iad_1 := NaN; iad_2 := NaN; iad_3 := NaN;
     iad_4 := NaN; iad_5 := NaN; iad_6 := NaN |}.

(** The attributes of a [HipparcosLogProb] instance. *)
Record hip_state : Type := {
  plx0 : ext; pm_ra0 : ext; pm_dec0 : ext; alpha0 : ext; delta0 : ext;
  plx0_err : ext; pm_ra0_err : ext; pm_dec0_err : ext;
  alpha0_err : ext; delta0_err : ext;
  epochs : list ext; epochs_mjd : list ext;
  cos_phi : list ext; sin_phi : list ext; R_ : list ext; eps : list ext;
  X : list ext; Y : list ext; Z : list ext;
  alpha_abs_st : list ext; delta_abs : list ext
}.

Definition fst3 {A B C} (t : A * B * C) : A := let '(a, _, _) := t in a.
Definition snd3 {A B C} (t : A * B * C) : B := let '(_, b, _) := t in b.
Definition thd3 {A B C} (t : A * B * C) : C := let '(_, _, c) := t in c.

Section HipparcosLogProb.

(** [Time(times, format='decimalyear').decimalyear] and [.mjd] *)
Variable time_decimalyear : ext -> ext.
Variable time_mjd : ext -> ext.
(** [get_body_barycentric_posvel('earth', t)] position [x, y, z] [au] *)
Variable earth_barycentric_pos : ext -> ext * ext * ext.
(** orbitize's [calc_orbit(epoch_mjd, sma, ecc, inc, aop, pan, tau, plx, mtot)]
    for one orbit: [(raoff, decoff, vz)] *)
Variable calc_orbit :
  ext -> ext -> ext -> ext -> ext -> ext -> ext -> ext -> ext -> ext * ext * ext.

(** [__init__] after the catalogue query and the file read. *)
Definition init (hip_cat : hip_cat_row) (iad : list iad_row) : hip_state :=
  let plx0 := Plx hip_cat in
  let pm_ra0 := pmRA hip_cat in
  let pm_dec0 := pmDE hip_cat in
  let alpha0 := RArad hip_cat in
  let delta0 := DErad hip_cat in
  let times := map (fun r => eadd (iad_1 r) (Fin 1991.25)) iad in
  let epochs := map time_decimalyear times in
  let epochs_mjd := map time_mjd times in
  let cos_phi := map iad_3 iad in
  let sin_phi := map iad_4 iad in
  let R := map iad_5 iad in
  let eps := map iad_6 iad in
  let bary_pos := map earth_barycentric_pos times in
  let X := map fst3 bary_pos in
  let Y := map snd3 bary_pos in
  let Z := map thd3 bary_pos in
  (* reconstruct ephemeris of star given van Leeuwen best-fit [mas] *)
  let changein_alpha_st :=
    vzip eadd
      (map (emul plx0)
         (vzip esub
            (map (fun x => emul x (np_sin (np_radians alpha0))) X)
            (map (fun y => emul y (np_cos (np_radians alpha0))) Y)))
      (map (fun e => emul (esub e (Fin 1991.25)) pm_ra0) epochs) in
  let changein_delta :=
    vzip eadd
      (map (emul plx0)
         (vzip esub
            (vzip eadd
               (map (fun x => emul (emul x (np_cos (np_radians alpha0)))
                                   (np_sin (np_radians delta0))) X)
               (map (fun y => emul (emul y (np_sin (np_radians alpha0)))
                                   (np_sin (np_radians delta0))) Y))
            (map (fun z => emul z (np_cos (np_radians delta0))) Z)))
      (map (fun e => emul (esub e (Fin 1991.25)) pm_dec0) epochs) in
  (* compute abscissa point *)
  {| plx0 := plx0; pm_ra0 := pm_ra0; pm_dec0 := pm_dec0;
     alpha0 := alpha0; delta0 := delta0;
     plx0_err := e_Plx hip_cat; pm_ra0_err := e_pmRA hip_cat;
     pm_dec0_err := e_pmDE hip_cat; alpha0_err := e_RArad hip_cat;
     delta0_err := e_DErad hip_cat;
     epochs := epochs; epochs_mjd := epochs_mjd;
     cos_phi := cos_phi; sin_phi := sin_phi; R_ := R; eps := eps;
     X := X; Y := Y; Z := Z;
     alpha_abs_st := vzip eadd (vzip emul R cos_phi) changein_alpha_st;
     delta_abs := vzip eadd (vzip emul R sin_phi) changein_delta |}.

(** The orbital rows [samples[5:13]] of a full-orbit batch. *)
Record orbit_rows : Type := {
  sma : list ext; ecc : list ext; inc : list ext; aop : list ext;
  pan : list ext; tau : list ext; mtot : list ext; m1 : list ext
}.

(** [calc_orbit(self.epochs_mjd[i], sma, ecc, inc, aop, pan, tau, plx, mtot)]
    on arrays of orbits: [(raoff, decoff)], one entry per orbit. *)
Definition calc_orbit_v (epoch_mjd : ext) (o : orbit_rows) (plx : list ext)
    : list ext * list ext :=
  let offs :=
    map (fun j =>
           calc_orbit epoch_mjd (nth j (sma o) NaN) (nth j (ecc o) NaN)
             (nth j (inc o) NaN) (nth j (aop o) NaN) (nth j (pan o) NaN)
             (nth j (tau o) NaN) (nth j plx NaN) (nth j (mtot o) NaN))
        (seq 0 (List.length (sma o))) in
  (map fst3 offs, map snd3 offs).

(** The body of the epoch loop of [compute_lnprob]: [dist[i, :]].
    [orb] is [None] when [n_planets == 0]. *)
Definition epoch_dist (st : hip_state)
    (pm_ra pm_dec alpha_H0 delta_H0 plx : list ext) (orb : option orbit_rows)
    (i : nat) : list ext :=
  let sa := np_sin (np_radians (alpha0 st)) in
  let ca := np_cos (np_radians (alpha0 st)) in
  let sd := np_sin (np_radians (delta0 st)) in
  let cd := np_cos (np_radians (delta0 st)) in
  let Xi := nth i (X st) NaN in
  let Yi := nth i (Y st) NaN in
  let Zi := nth i (Z st) NaN in
  let dt := esub (nth i (epochs st) NaN) (Fin 1991.25) in
  (* expected offset from the Hipparcos photocenter in 1991.25 *)
  let alpha_C_st :=
    vzip eadd
      (vzip eadd alpha_H0
         (map (fun p => emul p (esub (emul Xi sa) (emul Yi ca))) plx))
      (map (fun p => emul dt p) pm_ra) in
  let delta_C :=
    vzip eadd
      (vzip eadd delta_H0
         (map (fun p => emul p (esub (eadd (emul (emul Xi ca) sd)
                                           (emul (emul Yi sa) sd))
                                     (emul Zi cd))) plx))
      (map (fun p => emul dt p) pm_dec) in
  (* secondary orbit perturbation *)
  let '(alpha_C_st, delta_C) :=
    match orb with
    | None => (alpha_C_st, delta_C)
    | Some o =>
        let '(raoff, decoff) := calc_orbit_v (nth i (epochs_mjd st) NaN) o plx in
        let raoff := vzip emul raoff (vzip ediv (map eopp (m1 o)) (mtot o)) in
        let decoff := vzip emul decoff (vzip ediv (map eopp (m1 o)) (mtot o)) in
        (vzip eadd alpha_C_st raoff, vzip eadd delta_C decoff)
    end in
  map eabs
    (vzip eadd
       (map (fun a => emul (esub (nth i (alpha_abs_st st) NaN) a)
                           (nth i (cos_phi st) NaN)) alpha_C_st)
       (map (fun d => emul (esub (nth i (delta_abs st) NaN) d)
                           (nth i (sin_phi st) NaN)) delta_C)).

(** What [compute_lnprob] returns: an array, or [None] after printing. *)
Inductive lnprob_ret : Type :=
| RetArray (v : list ext)
| RetNone (printed : string).

(** [np.sum([(dist[:,i] / self.eps)**2 for i in np.arange(n_samples)], axis=1)]:
    with no sample the list is 1-D and [axis=1] raises. *)
Definition chi2_of (dist : list (list ext)) (eps : list ext) (n_samples : nat)
    : py (list ext) :=
  match n_samples with
  | O => PyRaise AxisError
  | _ =>
      PyOk (map (fun j =>
                   np_sum (map esq (vzip ediv (map (fun row => nth j row NaN) dist) eps)))
                (seq 0 n_samples))
  end.

(** [compute_lnprob] from [n_samples = len(pm_ra)] on. *)
Definition lnprob_body (st : hip_state)
    (pm_ra pm_dec alpha_H0 delta_H0 plx : list ext) (orb : option orbit_rows)
    (negative : bool) : py lnprob_ret :=
  let n_samples := List.length pm_ra in
  let n_epochs := List.length (epochs st) in
  let dist := map (epoch_dist st pm_ra pm_dec alpha_H0 delta_H0 plx orb)
                  (seq 0 n_epochs) in
  chi2 <- chi2_of dist (eps st) n_samples ;;
  let lnprob := map (emul (Fin (-0.5))) chi2 in
  (* prior forcing plx to be positive *)
  let bad_plx := filter (fun j => ele0 (nth j plx NaN)) (seq 0 (List.length plx)) in
  lnprob <- setitems lnprob bad_plx NInf ;;
  let lnprob := if negative then map (fun x => emul x (Fin (-1))) lnprob
                else lnprob in
  PyOk (RetArray lnprob).

Definition incorrect_msg : string :=
  "Incorrect number of fitting params in `samples`.".

(** [HipparcosLogProb.compute_lnprob(samples, negative)], [samples] given
    by its rows. *)
Definition compute_lnprob (st : hip_state) (samples : list (list ext))
    (negative : bool) : py lnprob_ret :=
  let n_params := List.length samples in
  pm_ra <- getitem samples 0 ;;
  pm_dec <- getitem samples 1 ;;
  alpha_H0 <- getitem samples 2 ;;
  delta_H0 <- getitem samples 3 ;;
  plx <- getitem samples 4 ;;
  if Nat.eqb n_params 5 then
    lnprob_body st pm_ra pm_dec alpha_H0 delta_H0 plx None negative
  else if Nat.eqb n_params 13 then
    sma <- getitem samples 5 ;;
    ecc <- getitem samples 6 ;;
    inc <- getitem samples 7 ;;
    aop <- getitem samples 8 ;;
    pan <- getitem samples 9 ;;
    tau <- getitem samples 10 ;;
    mtot <- getitem samples 11 ;;
    m1 <- getitem samples 12 ;;
    lnprob_body st pm_ra pm_dec alpha_H0 delta_H0 plx
      (Some {| sma := sma; ecc := ecc; inc := inc; aop := aop; pan := pan;
               tau := tau; mtot := mtot; m1 := m1 |}) negative
  else
    PyOk (RetNone incorrect_msg).

(** *** One candidate at a time

    numpy evaluates [compute_lnprob] elementwise along the candidate axis;
    [lnprob1] is that evaluation for the single column [j] of a batch. *)

Record orbit1 : Type := {
  sma1 : ext; ecc1 : ext; inc1 : ext; aop1 : ext;
  pan1 : ext; tau1 : ext; mtot1 : ext; m11 : ext
}.

Record candidate : Type := {
  c_pm_ra : ext; c_pm_dec : ext; c_alpha_H0 : ext; c_delta_H0 : ext;
  c_plx : ext; c_orbit : option orbit1
}.

(** number of candidates [M = len(samples[0])] *)
Definition n_cands (samples : list (list ext)) : nat :=
  List.length (hd [] samples).

(** column [j] of a batch, read with the layout [compute_lnprob] picks *)
Definition candidate_at (samples : list (list ext)) (j : nat) : candidate :=
  let c k := nth j (nth k samples []) NaN in
  {| c_pm_ra := c 0%nat; c_pm_dec := c 1%nat; c_alpha_H0 := c 2%nat;
     c_delta_H0 := c 3%nat; c_plx := c 4%nat;
     c_orbit :=
       if Nat.eqb (List.length samples) 13 then
         Some {| sma1 := c 5%nat; ecc1 := c 6%nat; inc1 := c 7%nat;
                 aop1 := c 8%nat; pan1 := c 9%nat; tau1 := c 10%nat;
                 mtot1 := c 11%nat; m11 := c 12%nat |}
       else None |}.

(** [dist[i, j]] *)
Definition epoch_dist1 (st : hip_state) (c : candidate) (i : nat) : ext :=
  let sa := np_sin (np_radians (alpha0 st)) in
  let ca := np_cos (np_radians (alpha0 st)) in
  let sd := np_sin (np_radians (delta0 st)) in
  let cd := np_cos (np_radians (delta0 st)) in
  let Xi := nth i (X st) NaN in
  let Yi := nth i (Y st) NaN in
  let Zi := nth i (Z st) NaN in
  let dt := esub (nth i (epochs st) NaN) (Fin 1991.25) in
  let p := c_plx c in
  let a := eadd (eadd (c_alpha_H0 c) (emul p (esub (emul Xi sa) (emul Yi ca))))
                (emul dt (c_pm_ra c)) in
  let d := eadd (eadd (c_delta_H0 c)
                      (emul p (esub (eadd (emul (emul Xi ca) sd)
                                          (emul (emul Yi sa) sd))
                                    (emul Zi cd))))
                (emul dt (c_pm_dec c)) in
  let '(a, d) :=
    match c_orbit c with
    | None => (a, d)
    | Some o =>
        let off := calc_orbit (nth i (epochs_mjd st) NaN) (sma1 o) (ecc1 o)
                     (inc1 o) (aop1 o) (pan1 o) (tau1 o) p (mtot1 o) in
        (eadd a (emul (fst3 off) (ediv (eopp (m11 o)) (mtot1 o))),
         eadd d (emul (snd3 off) (ediv (eopp (m11 o)) (mtot1 o))))
    end in
  eabs (eadd (emul (esub (nth i (alpha_abs_st st) NaN) a) (nth i (cos_phi st) NaN))
             (emul (esub (nth i (delta_abs st) NaN) d) (nth i (sin_phi st) NaN))).

(** [-0.5 * chi2] for candidate [c] *)
Definition chi2_lnprob1 (st : hip_state) (c : candidate) : ext :=
  emul (Fin (-0.5))
    (np_sum (map (fun i => esq (ediv (epoch_dist1 st c i) (nth i (eps st) NaN)))
                 (seq 0 (List.length (epochs st))))).

(** column [j] of the orbital rows *)
Definition orbit_at (j : nat) (o : orbit_rows) : orbit1 :=
  {| sma1 := nth j (sma o) NaN; ecc1 := nth j (ecc o) NaN;
     inc1 := nth j (inc o) NaN; aop1 := nth j (aop o) NaN;
     pan1 := nth j (pan o) NaN; tau1 := nth j (tau o) NaN;
     mtot1 := nth j (mtot o) NaN; m11 := nth j (m1 o) NaN |}.

(** the entry of the returned array for candidate [c] *)
Definition lnprob1 (st : hip_state) (negative : bool) (c : candidate) : ext :=
  let l := if ele0 (c_plx c) then NInf else chi2_lnprob1 st c in
  if negative then emul l (Fin (-1)) else l.

End HipparcosLogProb.

(** A batch is a 2-D array: all its rows have the length of the first. *)
Definition rectangular (samples : list (list ext)) : Prop :=
  Forall (fun r => List.length r = n_cands samples) samples.

(** The per-epoch arrays of an instance all have one length N (they come
    from the columns of one file and from the ephemeris at its epochs). *)
Definition state_wf (st : hip_state) : Prop :=
  let N := List.length (epochs st) in
  List.length (epochs_mjd st) = N /\ List.length (cos_phi st) = N /\
  List.length (sin_phi st) = N /\ List.length (R_ st) = N /\
  List.length (eps st) = N /\ List.length (X st) = N /\
  List.length (Y st) = N /\ List.length (Z st) = N /\
  List.length (alpha_abs_st st) = N /\ List.length (delta_abs st) = N.

(** A sequence of [compute_lnprob] calls on one instance: the method
    assigns no attribute of [self], so the instance is handed on as it is. *)
Fixpoint run_calls
    (calc_orbit : ext -> ext -> ext -> ext -> ext -> ext -> ext -> ext -> ext -> ext * ext * ext)
    (st : hip_state)
    (calls : list (list (list ext) * bool)) : list (py lnprob_ret) * hip_state :=
  match calls with
  | [] => ([], st)
  | (samples, negative) :: calls' =>
      let r := compute_lnprob calc_orbit st samples negative in
      let '(rs, st') := run_calls calc_orbit st calls' in
      (r :: rs, st')
  end.

(** [-x] elementwise on what [compute_lnprob] returns *)
Definition negate_ret (r : py lnprob_ret) : py lnprob_ret :=
  match r with
  | PyOk (RetArray v) => PyOk (RetArray (map eopp v))
  | _ => r
  end.

(** a value [<= 0] (false on NaN and [+inf]) *)
Definition ext_le0 (x : ext) : Prop :=
  match x with
  | Fin a => a <= 0
  | NInf => True
  | PInf | NaN => False
  end.

(** *** The log-probability as the spec writes it *)

(** [alpha_C*_ij] and [delta_C_ij] without a companion *)
Definition spec_alpha_C (st : hip_state) (c : candidate) (i : nat) : ext :=
  eadd (eadd (c_alpha_H0 c)
             (emul (c_plx c)
                   (esub (emul (nth i (X st) NaN) (np_sin (np_radians (alpha0 st))))
                         (emul (nth i (Y st) NaN) (np_cos (np_radians (alpha0 st)))))))
       (emul (esub (nth i (epochs st) NaN) (Fin 1991.25)) (c_pm_ra c)).

Definition spec_delta_C (st : hip_state) (c : candidate) (i : nat) : ext :=
  eadd (eadd (c_delta_H0 c)
             (emul (c_plx c)
                   (esub (eadd (emul (emul (nth i (X st) NaN) (np_cos (np_radians (alpha0 st))))
                                     (np_sin (np_radians (delta0 st))))
                               (emul (emul (nth i (Y st) NaN) (np_sin (np_radians (alpha0 st))))
                                     (np_sin (np_radians (delta0 st)))))
                         (emul (nth i (Z st) NaN) (np_cos (np_radians (delta0 st)))))))
       (emul (esub (nth i (epochs st) NaN) (Fin 1991.25)) (c_pm_dec c)).

(** [dist_ij] for predicted offsets [a], [d] *)
Definition spec_dist (st : hip_state) (i : nat) (a d : ext) : ext :=
  eabs (eadd (emul (esub (nth i (alpha_abs_st st) NaN) a) (nth i (cos_phi st) NaN))
             (emul (esub (nth i (delta_abs st) NaN) d) (nth i (sin_phi st) NaN))).

(** [-0.5 * sum_i (dist_ij / eps_i)^2] for per-epoch distances [dist] *)
Definition spec_lnprob (st : hip_state) (dist : nat -> ext) : ext :=
  emul (Fin (-0.5))
    (np_sum (map (fun i => esq (ediv (dist i) (nth i (eps st) NaN)))
                 (seq 0 (List.length (epochs st))))).

(** the companion's pull on the star at epoch [i]: the offsets of the orbit
    model rescaled by [-m_secondary / mtot] *)
Definition spec_pull
    (calc_orbit : ext -> ext -> ext -> ext -> ext -> ext -> ext -> ext -> ext -> ext * ext * ext)
    (st : hip_state) (c : candidate) (o : orbit1) (i : nat)
    : ext * ext :=
  let off := calc_orbit (nth i (epochs_mjd st) NaN) (sma1 o) (ecc1 o) (inc1 o)
               (aop1 o) (pan1 o) (tau1 o) (c_plx c) (mtot1 o) in
  (emul (fst3 off) (ediv (eopp (m11 o)) (mtot1 o)),
   emul (snd3 off) (ediv (eopp (m11 o)) (mtot1 o))).

(** rows 5-12 of a 13-row batch *)
Definition orbit_rows_of (samples : list (list ext)) : orbit_rows :=
  {| sma := nth 5 samples []; ecc := nth 6 samples []; inc := nth 7 samples [];
     aop := nth 8 samples []; pan := nth 9 samples []; tau := nth 10 samples [];
     mtot := nth 11 samples []; m1 := nth 12 samples [] |}.

(** the orbit model at epoch [i] for column [j] of a 13-row batch *)
Definition orbit_model_at
    (calc_orbit : ext -> ext -> ext -> ext -> ext -> ext -> ext -> ext -> ext -> ext * ext * ext)
    (st : hip_state) (samples : list (list ext)) (i j : nat) : ext * ext * ext :=
  let c k := nth j (nth k samples []) NaN in
  calc_orbit (nth i (epochs_mjd st) NaN) (c 5%nat) (c 6%nat) (c 7%nat) (c 8%nat)
    (c 9%nat) (c 10%nat) (c 4%nat) (c 11%nat).

(** The claim's reconstruction formulas for epoch [i]. *)
Definition spec_alpha_abs (st : hip_state) (i : nat) : ext :=
  eadd (emul (nth i (R_ st) NaN) (nth i (cos_phi st) NaN))
       (eadd (emul (plx0 st)
                   (esub (emul (nth i (X st) NaN) (np_sin (np_radians (alpha0 st))))
                         (emul (nth i (Y st) NaN) (np_cos (np_radians (alpha0 st))))))
             (emul (esub (nth i (epochs st) NaN) (Fin 1991.25)) (pm_ra0 st))).

Definition spec_delta_abs (st : hip_state) (i : nat) : ext :=
  eadd (emul (nth i (R_ st) NaN) (nth i (sin_phi st) NaN))
       (eadd (emul (plx0 st)
                   (esub (eadd (emul (emul (nth i (X st) NaN) (np_cos (np_radians (alpha0 st))))
                                     (np_sin (np_radians (delta0 st))))
                               (emul (emul (nth i (Y st) NaN) (np_sin (np_radians (alpha0 st))))
                                     (np_sin (np_radians (delta0 st)))))
                         (emul (nth i (Z st) NaN) (np_cos (np_radians (delta0 st))))))
             (emul (esub (nth i (epochs st) NaN) (Fin 1991.25)) (pm_dec0 st))).

(** ** Decision steps of the number model *)

Ltac ext_dec :=
  repeat match goal with
  | |- context [Req_dec_T ?a ?b] => destruct (Req_dec_T a b)
  | |- context [Rle_dec ?a ?b] => destruct (Rle_dec a b)
  | |- context [Rlt_dec ?a ?b] => destruct (Rlt_dec a b)
  end.

Ltac rabs_cases :=
  repeat match goal with
  | |- context [Rabs ?e] =>
      let H := fresh "Habs" in
      destruct (Rle_dec 0 e) as [H | H];
      [rewrite (Rabs_pos_eq e H) | rewrite (Rabs_left1 e) by lra]
  end.

(** ** The end-to-end fixture of the spec *)

Definition fixture_state : hip_state :=
  {| plx0 := Fin 0; pm_ra0 := Fin 0; pm_dec0 := Fin 0;
     alpha0 := Fin 0; delta0 := Fin 0;
     plx0_err := Fin 0; pm_ra0_err := Fin 0; pm_dec0_err := Fin 0;
     alpha0_err := Fin 0; delta0_err := Fin 0;
     epochs := [Fin 1991.25; Fin 1991.25]; epochs_mjd := [Fin 0; Fin 0];
     cos_phi := [Fin 1; Fin 0]; sin_phi := [Fin 0; Fin 1];
     R_ := [Fin 0; Fin 0]; eps := [Fin 1; Fin 1];
     X := [Fin 0; Fin 0]; Y := [Fin 0; Fin 0]; Z := [Fin 0; Fin 0];
     alpha_abs_st := [Fin 0; Fin 0]; delta_abs := [Fin 0; Fin 0] |}.

Definition no_orbit : ext -> ext -> ext -> ext -> ext -> ext -> ext -> ext -> ext ->
    ext * ext * ext :=
  fun _ _ _ _ _ _ _ _ _ => (Fin 0, Fin 0, Fin 0).

Definition orbit_rows_long (j : nat) (orb : option orbit_rows) : Prop :=
  match orb with
  | None => True
  | Some o => ((j < List.length (sma o)) /\ (j < List.length (mtot o)) /\
               (j < List.length (m1 o)))%nat
  end.

Definition cand_of (r0 r1 r2 r3 r4 : list ext) (orb : option orbit_rows) (j : nat)
    : candidate :=
  {| c_pm_ra := nth j r0 NaN; c_pm_dec := nth j r1 NaN;
     c_alpha_H0 := nth j r2 NaN; c_delta_H0 := nth j r3 NaN;
     c_plx := nth j r4 NaN; c_orbit := option_map (orbit_at j) orb |}.

Definition not_finite (x : ext) : Prop :=
  match x with Fin _ => False | _ => True end.

Definition zero_mass_batch (mtot : ext) : list (list ext) :=
  [[Fin 0]; [Fin 0]; [Fin 0]; [Fin 0]; [Fin 1]; [Fin 1]; [Fin 0]; [Fin 0];
   [Fin 0]; [Fin 0]; [Fin 0]; [mtot]; [Fin 0]].

Definition batch5_pos : list (list ext) :=
  [[Fin 0]; [Fin 0]; [Fin 0]; [Fin 0]; [Fin 1]].

Definition batch5_neg : list (list ext) :=
  [[Fin 0]; [Fin 0]; [Fin 0]; [Fin 0]; [Fin (-1)]].

Definition fixture_cat : hip_cat_row :=
  {| RArad := Fin 90; e_RArad := Fin 1; DErad := Fin 30; e_DErad := Fin 1;
     Plx := Fin 10; e_Plx := Fin 1; pmRA := Fin 2; e_pmRA := Fin 1;
     pmDE := Fin 3; e_pmDE := Fin 1 |}.

Definition fixture_iad : list iad_row :=
  [{| iad_0 := Fin 1; iad_1 := Fin 0.5; iad_2 := Fin 0; iad_3 := Fin 1;
      iad_4 := Fin 0; iad_5 := Fin 2; iad_6 := Fin 1 |}].

(** ** Batches a caller builds *)

(** [samples[:, idx]]: the columns [idx] of a batch, in that order *)
Definition select_cols (samples : list (list ext)) (idx : list nat) : list (list ext) :=
  map (fun row => map (fun j => nth j row NaN) idx) samples.

(** [np.concatenate((a, b), axis=1)] for two batches of one row count *)
Fixpoint concat_cols (a b : list (list ext)) : list (list ext) :=
  match a, b with
  | r :: a', s :: b' => (r ++ s) :: concat_cols a' b'
  | _, _ => []
  end.


(** a two-candidate 5-row batch: parallax 1 and -1 *)
Definition batch5_two : list (list ext) :=
  [[Fin 0; Fin 1]; [Fin 0; Fin 0]; [Fin 0; Fin 0]; [Fin 0; Fin 0]; [Fin 1; Fin (-1)]].

(** a 5-row batch whose only candidate has a NaN proper motion *)
Definition batch5_nan : list (list ext) :=
  [[NaN]; [Fin 0]; [Fin 0]; [Fin 0]; [Fin 1]].


Example fixture_zero_chi2 :
  exists r, compute_lnprob no_orbit fixture_state
              [[Fin 0]; [Fin 0]; [Fin 0]; [Fin 0]; [Fin 1]] false
            = PyOk (RetArray [Fin r]) /\ r = 0.
Proof.
  cbn. ext_dec; try lra. eexists; split. reflexivity. rewrite !Rmult_0_l, !Rmult_0_r. rabs_cases; lra.
Qed.

(** ** Array lemmas *)

Lemma vzip_length f xs ys :
  List.length (vzip f xs ys) = Nat.min (List.length xs) (List.length ys).
Proof.
  revert ys; induction xs as [|x xs IH]; intros [|y ys]; simpl; auto.
Qed.

Lemma vzip_nth f xs ys k d :
  (k < List.length xs)%nat -> (k < List.length ys)%nat ->
  nth k (vzip f xs ys) d = f (nth k xs d) (nth k ys d).
Proof.
  revert ys k; induction xs as [|x xs IH]; intros [|y ys] k Hx Hy;
    simpl in *; try lia.
  destruct k; [reflexivity | apply IH; lia].
Qed.

Lemma nth_map_seq {A} (g : nat -> A) n k d :
  (k < n)%nat -> nth k (map g (seq 0 n)) d = g k.
Proof.
  intro Hk.
  rewrite nth_indep with (d' := g 0%nat) by (rewrite length_map, length_seq; lia).
  rewrite map_nth, seq_nth by lia. reflexivity.
Qed.

Lemma setitem_spec {A} (xs : list A) k v :
  (k < List.length xs)%nat ->
  exists ys, setitem xs k v = PyOk ys /\ List.length ys = List.length xs /\
    forall j d, nth j ys d = if Nat.eqb j k then v else nth j xs d.
Proof.
  revert k; induction xs as [|x xs IH]; intros k Hk; simpl in Hk; [lia|].
  destruct k as [|k].
  - exists (v :: xs); split; [reflexivity|]; split; [reflexivity|].
    intros [|j] d; reflexivity.
  - destruct (IH k ltac:(lia)) as (ys & Hs & Hl & Hn).
    exists (x :: ys); simpl; rewrite Hs; simpl.
    split; [reflexivity|]; split; [simpl; lia|].
    intros [|j] d; simpl; [reflexivity | apply Hn].
Qed.

Lemma setitems_spec {A} (idx : list nat) (xs : list A) v :
  Forall (fun k => k < List.length xs)%nat idx ->
  exists ys, setitems xs idx v = PyOk ys /\ List.length ys = List.length xs /\
    forall j d, nth j ys d = if existsb (Nat.eqb j) idx then v else nth j xs d.
Proof.
  revert xs; induction idx as [|k idx IH]; intros xs Hall; simpl.
  - exists xs; auto.
  - inversion Hall as [|? ? Hk Hrest]; subst.
    destruct (setitem_spec xs k v Hk) as (ys & Hs & Hl & Hn).
    rewrite Hs; simpl.
    destruct (IH ys) as (zs & Hz & Hzl & Hzn).
    { rewrite Hl; exact Hrest. }
    exists zs; split; [exact Hz|]; split; [lia|].
    intros j d; rewrite Hzn, Hn.
    destruct (Nat.eqb j k); simpl; [|reflexivity].
    destruct (existsb (Nat.eqb j) idx); reflexivity.
Qed.

Lemma existsb_filter_seq (p : nat -> bool) n j :
  existsb (Nat.eqb j) (filter p (seq 0 n)) = andb (Nat.ltb j n) (p j).
Proof.
  apply eq_true_iff_eq. rewrite existsb_exists, andb_true_iff, Nat.ltb_lt.
  split.
  - intros (k & Hin & Hk). apply Nat.eqb_eq in Hk; subst k.
    apply filter_In in Hin as [Hin Hp]. apply in_seq in Hin. split; [lia | exact Hp].
  - intros [Hj Hp]. exists j; split; [|apply Nat.eqb_refl].
    apply filter_In; split; [apply in_seq; lia | exact Hp].
Qed.

Lemma nth_map_lt {A B} (f : A -> B) xs k d d0 :
  (k < List.length xs)%nat -> nth k (map f xs) d = f (nth k xs d0).
Proof.
  intro Hk. rewrite nth_indep with (d' := f d0) by (rewrite length_map; lia).
  apply map_nth.
Qed.

Ltac len_tac :=
  repeat rewrite ?vzip_length, ?length_map, ?length_seq; simpl; lia.

Ltac nth_tac :=
  repeat first
    [ rewrite vzip_nth by len_tac
    | rewrite (nth_map_lt _ _ _ _ NaN) by len_tac
    | rewrite (nth_map_lt _ _ _ _ (NaN, NaN, NaN)) by len_tac
    | rewrite (nth_map_lt _ _ _ _ (@nil ext)) by len_tac
    | rewrite (nth_map_lt _ _ _ _ iad_default) by len_tac
    | rewrite nth_map_seq by len_tac ].

(** ** Vectorised and per-candidate evaluation agree *)

Section Vectorised.

Variable calc_orbit :
  ext -> ext -> ext -> ext -> ext -> ext -> ext -> ext -> ext -> ext * ext * ext.

Lemma epoch_dist_nth st r0 r1 r2 r3 r4 orb i j :
  (j < List.length r0)%nat -> (j < List.length r1)%nat ->
  (j < List.length r2)%nat -> (j < List.length r3)%nat ->
  (j < List.length r4)%nat -> orbit_rows_long j orb ->
  nth j (epoch_dist calc_orbit st r0 r1 r2 r3 r4 orb i) NaN =
  epoch_dist1 calc_orbit st
    {| c_pm_ra := nth j r0 NaN; c_pm_dec := nth j r1 NaN;
       c_alpha_H0 := nth j r2 NaN; c_delta_H0 := nth j r3 NaN;
       c_plx := nth j r4 NaN; c_orbit := option_map (orbit_at j) orb |} i.
Proof.
  intros H0 H1 H2 H3 H4 Ho.
  destruct orb as [o|]; unfold epoch_dist, epoch_dist1, calc_orbit_v; simpl.
  - destruct Ho as (Hs & Ht & Hm). nth_tac. reflexivity.
  - nth_tac. reflexivity.
Qed.

Lemma chi2_column st r0 r1 r2 r3 r4 orb j :
  List.length (eps st) = List.length (epochs st) ->
  (j < List.length r0)%nat -> (j < List.length r1)%nat ->
  (j < List.length r2)%nat -> (j < List.length r3)%nat ->
  (j < List.length r4)%nat -> orbit_rows_long j orb ->
  map esq (vzip ediv
    (map (fun row => nth j row NaN)
       (map (epoch_dist calc_orbit st r0 r1 r2 r3 r4 orb)
            (seq 0 (List.length (epochs st)))))
    (eps st)) =
  map (fun i => esq (ediv (epoch_dist1 calc_orbit st (cand_of r0 r1 r2 r3 r4 orb j) i)
                          (nth i (eps st) NaN)))
      (seq 0 (List.length (epochs st))).
Proof.
  intros Heps H0 H1 H2 H3 H4 Ho.
  apply nth_ext with (d := NaN) (d' := NaN); [len_tac|].
  intros i Hi. rewrite length_map, vzip_length, !length_map, length_seq in Hi.
  nth_tac. rewrite epoch_dist_nth by assumption. reflexivity.
Qed.

Lemma lnprob_body_ok st r0 r1 r2 r3 r4 orb negative :
  List.length (eps st) = List.length (epochs st) ->
  (0 < List.length r0)%nat ->
  List.length r1 = List.length r0 -> List.length r2 = List.length r0 ->
  List.length r3 = List.length r0 -> List.length r4 = List.length r0 ->
  (forall j, j < List.length r0 -> orbit_rows_long j orb)%nat ->
  lnprob_body calc_orbit st r0 r1 r2 r3 r4 orb negative =
  PyOk (RetArray (map (fun j => lnprob1 calc_orbit st negative (cand_of r0 r1 r2 r3 r4 orb j))
                      (seq 0 (List.length r0)))).
Proof.
  intros Heps HM H1 H2 H3 H4 Ho.
  unfold lnprob_body.
  destruct (List.length r0) as [|M'] eqn:HM0; [lia|].
  cbn [chi2_of py_bind].
  rewrite <- HM0.
  set (lnprob0 := map (emul (Fin (-0.5))) _).
  destruct (setitems_spec (filter (fun j => ele0 (nth j r4 NaN)) (seq 0 (List.length r4)))
              lnprob0 NInf) as (ys & Hs & Hl & Hn).
  { apply Forall_forall. intros k Hk. apply filter_In in Hk as [Hk _].
    apply in_seq in Hk. unfold lnprob0. len_tac. }
  rewrite Hs. cbn [py_bind]. do 2 f_equal.
  assert (Hlen0 : List.length lnprob0 = List.length r0) by (unfold lnprob0; len_tac).
  apply nth_ext with (d := NaN) (d' := NaN).
  { destruct negative; len_tac. }
  intros j Hj.
  assert (Hj' : (j < List.length r0)%nat)
    by (destruct negative; rewrite ?length_map in Hj; lia).
  rewrite nth_map_seq by exact Hj'.
  assert (Hentry : nth j ys NaN =
                   if ele0 (nth j r4 NaN) then NInf
                   else chi2_lnprob1 calc_orbit st (cand_of r0 r1 r2 r3 r4 orb j)).
  { rewrite Hn, existsb_filter_seq.
    replace (Nat.ltb j (List.length r4)) with true
      by (symmetry; apply Nat.ltb_lt; lia).
    simpl. destruct (ele0 (nth j r4 NaN)); [reflexivity|].
    unfold lnprob0. nth_tac. unfold chi2_lnprob1. f_equal. f_equal.
    apply chi2_column; [exact Heps | lia | lia | lia | lia | lia | apply Ho; lia]. }
  unfold lnprob1. simpl c_plx.
  destruct negative.
  - rewrite (nth_map_lt _ _ _ _ NaN) by lia. rewrite Hentry. reflexivity.
  - exact Hentry.
Qed.

Lemma compute_lnprob_map st samples negative :
  rectangular samples ->
  (List.length samples = 5 \/ List.length samples = 13)%nat ->
  (0 < n_cands samples)%nat ->
  List.length (eps st) = List.length (epochs st) ->
  compute_lnprob calc_orbit st samples negative =
  PyOk (RetArray (map (fun j => lnprob1 calc_orbit st negative (candidate_at samples j))
                      (seq 0 (n_cands samples)))).
Proof.
  intros Hrect HP HM Heps.
  destruct samples as [|r0 [|r1 [|r2 [|r3 [|r4 rest]]]]];
    simpl in HP; try lia.
  unfold rectangular, n_cands in *; simpl hd in *.
  inversion Hrect as [|? ? _ Hr1]; subst.
  inversion Hr1 as [|? ? L1 Hr2]; subst.
  inversion Hr2 as [|? ? L2 Hr3]; subst.
  inversion Hr3 as [|? ? L3 Hr4]; subst.
  inversion Hr4 as [|? ? L4 Hrest]; subst.
  destruct HP as [HP | HP].
  - destruct rest; simpl in HP; [|lia].
    unfold compute_lnprob; simpl.
    rewrite lnprob_body_ok by (auto; intros; exact I).
    reflexivity.
  - destruct rest as [|r5 [|r6 [|r7 [|r8 [|r9 [|r10 [|r11 [|r12 [|r13 rest]]]]]]]]];
      simpl in HP; try lia.
    inversion Hrest as [|? ? L5 Hr6]; subst.
    inversion Hr6 as [|? ? L6 Hr7]; subst.
    inversion Hr7 as [|? ? L7 Hr8]; subst.
    inversion Hr8 as [|? ? L8 Hr9]; subst.
    inversion Hr9 as [|? ? L9 Hr10]; subst.
    inversion Hr10 as [|? ? L10 Hr11]; subst.
    inversion Hr11 as [|? ? L11 Hr12]; subst.
    inversion Hr12 as [|? ? L12 _]; subst.
    unfold compute_lnprob; simpl.
    rewrite lnprob_body_ok
      by (auto; intros j Hj; simpl; repeat split; lia).
    reflexivity.
Qed.

Lemma compute_lnprob_empty st samples negative :
  rectangular samples ->
  (List.length samples = 5 \/ List.length samples = 13)%nat ->
  n_cands samples = 0%nat ->
  compute_lnprob calc_orbit st samples negative = PyRaise AxisError.
Proof.
  intros _ HP HM.
  destruct samples as [|r0 [|r1 [|r2 [|r3 [|r4 rest]]]]];
    simpl in HP; try lia.
  unfold n_cands in HM; simpl in HM.
  destruct HP as [HP | HP].
  - destruct rest; simpl in HP; [|lia].
    unfold compute_lnprob, lnprob_body; simpl. rewrite HM. reflexivity.
  - destruct rest as [|r5 [|r6 [|r7 [|r8 [|r9 [|r10 [|r11 [|r12 [|r13 rest]]]]]]]]];
      simpl in HP; try lia.
    unfold compute_lnprob, lnprob_body; simpl. rewrite HM. reflexivity.
Qed.

Lemma compute_lnprob_short st samples negative :
  (List.length samples < 5)%nat ->
  compute_lnprob calc_orbit st samples negative = PyRaise IndexError.
Proof.
  intro HP.
  destruct samples as [|r0 [|r1 [|r2 [|r3 [|r4 rest]]]]];
    simpl in HP; try lia; reflexivity.
Qed.

Lemma compute_lnprob_bad_count st samples negative :
  (5 <= List.length samples)%nat ->
  List.length samples <> 5%nat -> List.length samples <> 13%nat ->
  compute_lnprob calc_orbit st samples negative = PyOk (RetNone incorrect_msg).
Proof.
  intros H5 Hn5 Hn13.
  destruct samples as [|r0 [|r1 [|r2 [|r3 [|r4 rest]]]]];
    simpl in H5; try lia.
  unfold compute_lnprob. simpl getitem. cbn [py_bind].
  apply Nat.eqb_neq in Hn5, Hn13. rewrite Hn5, Hn13. reflexivity.
Qed.

End Vectorised.

(** ** Lemmas of the number model *)

Lemma emul_neg1 x : emul x (Fin (-1)) = eopp x.
Proof.
  destruct x; simpl; unfold inf_of_sign; ext_dec; try lra; try reflexivity.
  f_equal; ring.
Qed.

Lemma inf_of_sign_nf s : not_finite (inf_of_sign s).
Proof. unfold inf_of_sign; ext_dec; exact I. Qed.

Lemma eadd_nf_l x y : not_finite x -> not_finite (eadd x y).
Proof. destruct x, y; simpl; tauto. Qed.

Lemma eadd_nf_r x y : not_finite y -> not_finite (eadd x y).
Proof. destruct x, y; simpl; tauto. Qed.

Lemma eopp_nf x : not_finite x -> not_finite (eopp x).
Proof. destruct x; simpl; tauto. Qed.

Lemma emul_nf_l x y : not_finite x -> not_finite (emul x y).
Proof. destruct x, y; simpl; try tauto; intros; apply inf_of_sign_nf. Qed.

Lemma emul_nf_r x y : not_finite y -> not_finite (emul x y).
Proof. destruct x, y; simpl; try tauto; intros; apply inf_of_sign_nf. Qed.

Lemma ediv_nf_l x y : not_finite x -> not_finite (ediv x y).
Proof. destruct x, y; simpl; try tauto; intros; apply inf_of_sign_nf. Qed.

Lemma ediv_zero_nf x : not_finite (ediv x (Fin 0)).
Proof.
  destruct x; simpl; ext_dec; try lra; try exact I; apply inf_of_sign_nf.
Qed.

Lemma eabs_nf x : not_finite x -> not_finite (eabs x).
Proof. destruct x; simpl; tauto. Qed.

Lemma fold_eadd_nf l a : not_finite a -> not_finite (fold_left eadd l a).
Proof.
  revert a; induction l as [|y l IH]; intros a Ha; simpl; [exact Ha|].
  apply IH, eadd_nf_l, Ha.
Qed.

Lemma np_sum_nf l : (exists y, In y l /\ not_finite y) -> not_finite (np_sum l).
Proof.
  unfold np_sum. generalize (Fin 0). intros a (y & Hin & Hy). revert a.
  induction l as [|z l IH]; intro a; simpl in Hin; [contradiction|].
  simpl. destruct Hin as [-> | Hin].
  - apply fold_eadd_nf, eadd_nf_r, Hy.
  - apply IH, Hin.
Qed.

Lemma eadd_fin_0 x : eadd x (Fin 0) = x.
Proof. destruct x; simpl; [f_equal; ring | reflexivity..]. Qed.

(** Sums of finite non-negative values. *)
Lemma fold_eadd_nonneg l a :
  0 <= a -> Forall (fun y => exists r, y = Fin r /\ 0 <= r) l ->
  exists s, fold_left eadd l (Fin a) = Fin s /\ 0 <= s.
Proof.
  revert a; induction l as [|y l IH]; intros a Ha Hl; simpl.
  - exists a; auto.
  - inversion Hl as [|? ? (r & -> & Hr) Hl']; subst. simpl.
    apply IH; [lra | exact Hl'].
Qed.

Lemma nth_fin l i :
  Forall is_finite l -> (i < List.length l)%nat -> exists r, nth i l NaN = Fin r.
Proof.
  intros Hl Hi. rewrite Forall_forall in Hl.
  specialize (Hl (nth i l NaN) (nth_In l NaN Hi)).
  destruct (nth i l NaN); [eexists; reflexivity | contradiction..].
Qed.

Lemma state_wf_eps st : state_wf st -> List.length (eps st) = List.length (epochs st).
Proof. unfold state_wf; tauto. Qed.

Lemma rect_row samples k :
  rectangular samples -> (k < List.length samples)%nat ->
  List.length (nth k samples []) = n_cands samples.
Proof.
  intros Hr Hk. unfold rectangular in Hr. rewrite Forall_forall in Hr.
  apply Hr, nth_In, Hk.
Qed.

Ltac fin_cases :=
  repeat match goal with
  | H : is_finite ?t |- _ => destruct t; simpl in H; try contradiction; clear H
  end.

Lemma epoch_dist1_finite calc_orbit st c i :
  c_orbit c = None ->
  is_finite (alpha0 st) -> is_finite (delta0 st) ->
  is_finite (nth i (X st) NaN) -> is_finite (nth i (Y st) NaN) ->
  is_finite (nth i (Z st) NaN) -> is_finite (nth i (epochs st) NaN) ->
  is_finite (nth i (alpha_abs_st st) NaN) -> is_finite (nth i (delta_abs st) NaN) ->
  is_finite (nth i (cos_phi st) NaN) -> is_finite (nth i (sin_phi st) NaN) ->
  is_finite (c_pm_ra c) -> is_finite (c_pm_dec c) -> is_finite (c_alpha_H0 c) ->
  is_finite (c_delta_H0 c) -> is_finite (c_plx c) ->
  exists r, epoch_dist1 calc_orbit st c i = Fin r /\ 0 <= r.
Proof.
  intros Hc. unfold epoch_dist1. rewrite Hc. intros.
  fin_cases. simpl. eexists; split; [reflexivity | apply Rabs_pos].
Qed.

Lemma pull_vanishes off mt :
  is_finite off -> mt <> Fin 0 -> mt <> NaN ->
  emul off (ediv (eopp (Fin 0)) mt) = Fin 0.
Proof.
  intros Hoff H0 Hn.
  destruct off as [r| | |]; try contradiction.
  destruct mt as [b| | |]; simpl; try congruence.
  - ext_dec; [subst b; congruence|]. f_equal. unfold Rdiv. ring.
  - f_equal; ring.
  - f_equal; ring.
Qed.

(** ** The claims *)

Section Claims.

Variable calc_orbit :
  ext -> ext -> ext -> ext -> ext -> ext -> ext -> ext -> ext -> ext * ext * ext.

Lemma lnprob_body_negative st r0 r1 r2 r3 r4 orb :
  lnprob_body calc_orbit st r0 r1 r2 r3 r4 orb true =
  negate_ret (lnprob_body calc_orbit st r0 r1 r2 r3 r4 orb false).
Proof.
  unfold lnprob_body.
  destruct (chi2_of _ _ _) as [chi2|e]; cbn [py_bind]; [|reflexivity].
  destruct (setitems _ _ _) as [l|e]; cbn [py_bind negate_ret]; [|reflexivity].
  do 2 f_equal. apply map_ext, emul_neg1.
Qed.

(** C1: in a batch of 5 or 13 rows, a candidate whose parallax (row 4) is
    [<= 0] gets [-inf], whatever its other parameters: the entry is set
    after the chi-square reduction, over [-0.5 * chi2]. *)
Theorem C1_nonpositive_plx_neg_inf st samples j :
  state_wf st -> rectangular samples ->
  (List.length samples = 5 \/ List.length samples = 13)%nat ->
  (j < n_cands samples)%nat ->
  ele0 (nth j (nth 4 samples []) NaN) = true ->
  exists v, compute_lnprob calc_orbit st samples false = PyOk (RetArray v) /\
            nth j v NaN = NInf.
Proof.
  intros Hwf Hrect HP Hj Hplx.
  rewrite compute_lnprob_map by (auto using state_wf_eps; lia).
  eexists; split; [reflexivity|].
  rewrite nth_map_seq by exact Hj.
  unfold lnprob1, candidate_at; simpl c_plx. rewrite Hplx. reflexivity.
Qed.

(** C5: [negative=True] returns the elementwise negation of what
    [negative=False] returns ([-inf] becomes [+inf]); for every batch. *)
Theorem C5_negative_is_negation st samples :
  compute_lnprob calc_orbit st samples true =
  negate_ret (compute_lnprob calc_orbit st samples false).
Proof.
  destruct samples as [|r0 [|r1 [|r2 [|r3 [|r4 rest]]]]]; try reflexivity.
  unfold compute_lnprob. simpl getitem. cbn [py_bind].
  destruct (Nat.eqb _ 5); [apply lnprob_body_negative|].
  destruct (Nat.eqb _ 13); [|reflexivity].
  destruct rest as [|r5 [|r6 [|r7 [|r8 [|r9 [|r10 [|r11 [|r12 rest]]]]]]]];
    try reflexivity.
  apply lnprob_body_negative.
Qed.

(** C2 (as stated): the closed formula for every candidate of a 5-row
    batch.  It fails for a candidate with non-positive parallax. *)
Lemma C2_counterexample :
  exists v,
    compute_lnprob no_orbit fixture_state
      [[Fin 0]; [Fin 0]; [Fin 0]; [Fin 0]; [Fin (-1)]] false = PyOk (RetArray v) /\
    nth 0 v NaN <>
    spec_lnprob fixture_state
      (fun i =>
         let c := candidate_at [[Fin 0]; [Fin 0]; [Fin 0]; [Fin 0]; [Fin (-1)]] 0 in
         spec_dist fixture_state i (spec_alpha_C fixture_state c i)
                   (spec_delta_C fixture_state c i)).
Proof.
  eexists; split.
  - cbn. ext_dec; try lra. reflexivity.
  - cbn. ext_dec; try lra; discriminate.
Qed.

(** C2 (amended): for a 5-row batch with at least one candidate, the
    output has one entry per column, and the entry of every candidate whose
    parallax is not [<= 0] is [-0.5 * sum_i (dist_ij / eps_i)^2] with
    [dist_ij = |(alpha_abs_i - alpha_C*_ij) cos_phi_i
                + (delta_abs_i - delta_C_ij) sin_phi_i|]. *)
Theorem C2_lnprob_formula st samples :
  state_wf st -> rectangular samples ->
  List.length samples = 5%nat -> (0 < n_cands samples)%nat ->
  exists v,
    compute_lnprob calc_orbit st samples false = PyOk (RetArray v) /\
    List.length v = n_cands samples /\
    forall j, (j < n_cands samples)%nat ->
      ele0 (nth j (nth 4 samples []) NaN) = false ->
      nth j v NaN =
      spec_lnprob st
        (fun i => spec_dist st i (spec_alpha_C st (candidate_at samples j) i)
                                 (spec_delta_C st (candidate_at samples j) i)).
Proof.
  intros Hwf Hrect HP HM.
  rewrite compute_lnprob_map by (auto using state_wf_eps; lia).
  eexists; split; [reflexivity|]; split; [len_tac|].
  intros j Hj Hplx.
  rewrite nth_map_seq by exact Hj.
  unfold lnprob1. replace (ele0 (c_plx (candidate_at samples j))) with false
    by (symmetry; exact Hplx).
  unfold chi2_lnprob1, spec_lnprob. do 2 f_equal. apply map_ext. intro i.
  unfold epoch_dist1, candidate_at. rewrite HP. reflexivity.
Qed.

(** C6: a batch of 4 rows (fewer than 5) raises [IndexError] at
    [samples[4]], before the parameter-count check could print its message;
    a batch of 6 rows reaches the check, prints it and returns [None]. *)
Theorem C6_short_batch_index_error :
  compute_lnprob no_orbit fixture_state [[Fin 0]; [Fin 0]; [Fin 0]; [Fin 0]] false
    = PyRaise IndexError /\
  compute_lnprob no_orbit fixture_state
    [[Fin 0]; [Fin 0]; [Fin 0]; [Fin 0]; [Fin 1]; [Fin 0]] false
    = PyOk (RetNone incorrect_msg).
Proof. split; reflexivity. Qed.

(** C7 (as stated): non-positive-parallax entries are [-inf] in both
    modes.  With [negative=True] such an entry is [+inf]. *)
Lemma C7_counterexample :
  exists v,
    compute_lnprob no_orbit fixture_state
      [[Fin 0]; [Fin 0]; [Fin 0]; [Fin 0]; [Fin (-1)]] true = PyOk (RetArray v) /\
    nth 0 v NaN <> NInf.
Proof.
  eexists; split.
  - cbn. ext_dec; try lra. reflexivity.
  - cbn. unfold inf_of_sign. ext_dec; try lra; discriminate.
Qed.

(** C7 (amended): for a batch of 5 or 13 rows with at least one
    candidate, the output has one entry per candidate: [-0.5 * chi2], or
    its negation with [negative=True]; candidates with parallax [<= 0] get
    [-inf], and [+inf] with [negative=True]. *)
Theorem C7_output_entries st samples negative :
  state_wf st -> rectangular samples ->
  (List.length samples = 5 \/ List.length samples = 13)%nat ->
  (0 < n_cands samples)%nat ->
  exists v,
    compute_lnprob calc_orbit st samples negative = PyOk (RetArray v) /\
    List.length v = n_cands samples /\
    forall j, (j < n_cands samples)%nat ->
      nth j v NaN =
      if ele0 (nth j (nth 4 samples []) NaN) then
        (if negative then PInf else NInf)
      else
        (if negative then eopp (chi2_lnprob1 calc_orbit st (candidate_at samples j))
         else chi2_lnprob1 calc_orbit st (candidate_at samples j)).
Proof.
  intros Hwf Hrect HP HM.
  rewrite compute_lnprob_map by (auto using state_wf_eps; lia).
  eexists; split; [reflexivity|]; split; [len_tac|].
  intros j Hj.
  rewrite nth_map_seq by exact Hj.
  unfold lnprob1, candidate_at at 1; simpl c_plx.
  destruct (ele0 _), negative; rewrite ?emul_neg1; reflexivity.
Qed.

End Claims.

Section Massless.

Variable calc_orbit :
  ext -> ext -> ext -> ext -> ext -> ext -> ext -> ext -> ext -> ext * ext * ext.

Lemma epoch_dist1_massless st c o i :
  c_orbit c = Some o -> m11 o = Fin 0 -> mtot1 o <> Fin 0 -> mtot1 o <> NaN ->
  is_finite (fst3 (calc_orbit (nth i (epochs_mjd st) NaN) (sma1 o) (ecc1 o) (inc1 o)
                     (aop1 o) (pan1 o) (tau1 o) (c_plx c) (mtot1 o))) ->
  is_finite (snd3 (calc_orbit (nth i (epochs_mjd st) NaN) (sma1 o) (ecc1 o) (inc1 o)
                     (aop1 o) (pan1 o) (tau1 o) (c_plx c) (mtot1 o))) ->
  epoch_dist1 calc_orbit st c i =
  epoch_dist1 calc_orbit st
    {| c_pm_ra := c_pm_ra c; c_pm_dec := c_pm_dec c; c_alpha_H0 := c_alpha_H0 c;
       c_delta_H0 := c_delta_H0 c; c_plx := c_plx c; c_orbit := None |} i.
Proof.
  intros Hc Hm H0 Hn Hra Hde.
  unfold epoch_dist1. rewrite Hc, Hm. cbn [c_orbit c_plx c_pm_ra c_pm_dec c_alpha_H0 c_delta_H0].
  rewrite (pull_vanishes _ _ Hra H0 Hn), (pull_vanishes _ _ Hde H0 Hn), !eadd_fin_0.
  reflexivity.
Qed.

(** C4 (as stated): a massless companion gives the 5-row output.  With
    [mtot = 0] too, [-0 / 0] is NaN and the 13-row entry is NaN, although the
    orbit model's offsets are finite (here 0). *)
Lemma C4_counterexample :
  compute_lnprob no_orbit fixture_state (zero_mass_batch (Fin 0)) false <>
  compute_lnprob no_orbit fixture_state (firstn 5 (zero_mass_batch (Fin 0))) false.
Proof.
  cbn. unfold inf_of_sign. ext_dec; try lra; discriminate.
Qed.

(** C4 (amended): for a 13-row batch in which every candidate has
    [m_secondary = 0] and an [mtot] that is neither 0 nor NaN, and the orbit
    model returns finite offsets, [compute_lnprob] returns exactly what it
    returns on the 5-row batch of rows 0-4. *)
Theorem C4_massless_companion st samples negative :
  state_wf st -> rectangular samples -> List.length samples = 13%nat ->
  (forall j, (j < n_cands samples)%nat ->
     nth j (nth 12 samples []) NaN = Fin 0 /\
     nth j (nth 11 samples []) NaN <> Fin 0 /\
     nth j (nth 11 samples []) NaN <> NaN) ->
  (forall i j, (i < List.length (epochs st))%nat -> (j < n_cands samples)%nat ->
     is_finite (fst3 (orbit_model_at calc_orbit st samples i j)) /\
     is_finite (snd3 (orbit_model_at calc_orbit st samples i j))) ->
  compute_lnprob calc_orbit st samples negative =
  compute_lnprob calc_orbit st (firstn 5 samples) negative.
Proof.
  intros Hwf Hrect HP Hmass Hfin.
  destruct samples as
    [|r0 [|r1 [|r2 [|r3 [|r4 [|r5 [|r6 [|r7 [|r8 [|r9 [|r10 [|r11 [|r12 [|r13 rest]]]]]]]]]]]]]];
    simpl in HP; try lia.
  assert (Hrect5 : rectangular [r0; r1; r2; r3; r4]).
  { unfold rectangular, n_cands in *; simpl in *.
    inversion Hrect as [|? ? _ Hr1]; subst.
    inversion Hr1 as [|? ? L1 Hr2]; subst.
    inversion Hr2 as [|? ? L2 Hr3]; subst.
    inversion Hr3 as [|? ? L3 Hr4]; subst.
    inversion Hr4 as [|? ? L4 _]; subst.
    repeat constructor; assumption. }
  simpl firstn.
  destruct (Nat.eq_dec (n_cands [r0; r1; r2; r3; r4; r5; r6; r7; r8; r9; r10; r11; r12]) 0)
    as [HM | HM].
  { rewrite !compute_lnprob_empty; auto. }
  rewrite (compute_lnprob_map _ _ [r0; r1; r2; r3; r4; r5; r6; r7; r8; r9; r10; r11; r12])
    by first [exact Hrect | apply state_wf_eps, Hwf | (simpl; lia)
             | (unfold n_cands in *; simpl in *; lia)].
  rewrite (compute_lnprob_map _ _ [r0; r1; r2; r3; r4])
    by first [exact Hrect5 | apply state_wf_eps, Hwf | (simpl; lia)
             | (unfold n_cands in *; simpl in *; lia)].
  change (n_cands [r0; r1; r2; r3; r4]) with
    (n_cands [r0; r1; r2; r3; r4; r5; r6; r7; r8; r9; r10; r11; r12]).
  apply (f_equal (fun v => PyOk (RetArray v))).
  apply map_ext_in. intros j Hj. apply in_seq in Hj.
  destruct (Hmass j ltac:(lia)) as (Hm & Ht0 & Htn).
  unfold lnprob1. cbn [c_plx candidate_at].
  destruct (ele0 _); [reflexivity|].
  assert (Hchi : chi2_lnprob1 calc_orbit st
                   (candidate_at [r0; r1; r2; r3; r4; r5; r6; r7; r8; r9; r10; r11; r12] j) =
                 chi2_lnprob1 calc_orbit st (candidate_at [r0; r1; r2; r3; r4] j)).
  { unfold chi2_lnprob1. do 2 f_equal. apply map_ext_in. intros i Hi.
    apply in_seq in Hi.
    destruct (Hfin i j ltac:(lia) ltac:(lia)) as [Hra Hde].
    rewrite (epoch_dist1_massless st _ (orbit_at j {| sma := r5; ecc := r6; inc := r7;
               aop := r8; pan := r9; tau := r10; mtot := r11; m1 := r12 |}));
      [reflexivity | reflexivity | exact Hm | exact Ht0 | exact Htn | exact Hra | exact Hde]. }
  rewrite Hchi. reflexivity.
Qed.

(** C8: in a 13-row batch, [dist[i, j]] is the scan-direction projection
    of [alpha_C*_ij + raoff * (-m_secondary / mtot)] and
    [delta_C_ij + decoff * (-m_secondary / mtot)], where [(raoff, decoff)]
    is the orbit model at epoch [i] on
    [(sma, ecc, inc, aop, pan, tau, plx, mtot)] of candidate [j]; the entry
    of a candidate with parallax not [<= 0] is [-0.5 * chi2] of these. *)
Theorem C8_orbit_perturbation st samples :
  state_wf st -> rectangular samples -> List.length samples = 13%nat ->
  (0 < n_cands samples)%nat ->
  (forall i j, (j < n_cands samples)%nat ->
     nth j (epoch_dist calc_orbit st (nth 0 samples []) (nth 1 samples [])
              (nth 2 samples []) (nth 3 samples []) (nth 4 samples [])
              (Some (orbit_rows_of samples)) i) NaN =
     let c := candidate_at samples j in
     let pull := spec_pull calc_orbit st c (orbit_at j (orbit_rows_of samples)) i in
     spec_dist st i (eadd (spec_alpha_C st c i) (fst pull))
                    (eadd (spec_delta_C st c i) (snd pull))) /\
  exists v,
    compute_lnprob calc_orbit st samples false = PyOk (RetArray v) /\
    forall j, (j < n_cands samples)%nat ->
      ele0 (nth j (nth 4 samples []) NaN) = false ->
      nth j v NaN =
      spec_lnprob st (fun i =>
        let c := candidate_at samples j in
        let pull := spec_pull calc_orbit st c (orbit_at j (orbit_rows_of samples)) i in
        spec_dist st i (eadd (spec_alpha_C st c i) (fst pull))
                       (eadd (spec_delta_C st c i) (snd pull))).
Proof.
  intros Hwf Hrect HP HM.
  assert (Hlen : forall k, (k < 13)%nat -> List.length (nth k samples []) = n_cands samples)
    by (intros k Hk; apply rect_row; [exact Hrect | lia]).
  split.
  - intros i j Hj.
    rewrite epoch_dist_nth by (try (rewrite Hlen; lia); simpl; rewrite !Hlen; lia).
    unfold epoch_dist1, cand_of, candidate_at. rewrite HP. reflexivity.
  - rewrite compute_lnprob_map by (auto using state_wf_eps; lia).
    eexists; split; [reflexivity|].
    intros j Hj Hplx.
    rewrite nth_map_seq by exact Hj.
    unfold lnprob1. replace (ele0 (c_plx (candidate_at samples j))) with false
      by (symmetry; exact Hplx).
    unfold chi2_lnprob1, spec_lnprob. do 2 f_equal. apply map_ext. intro i.
    unfold epoch_dist1, candidate_at. rewrite HP. reflexivity.
Qed.

Lemma nth_row_finite samples k j :
  rectangular samples -> Forall (Forall is_finite) samples ->
  (k < List.length samples)%nat -> (j < n_cands samples)%nat ->
  is_finite (nth j (nth k samples []) NaN).
Proof.
  intros Hr Hf Hk Hj.
  rewrite Forall_forall in Hf.
  destruct (nth_fin (nth k samples []) j) as [r Hr'].
  - apply Hf, nth_In, Hk.
  - rewrite rect_row; assumption.
  - rewrite Hr'. exact I.
Qed.

(** C9 (amended): for a 5-row batch with at least one candidate, with all
    inputs finite and every [eps_i] nonzero, every candidate with parallax
    [> 0] gets an entry [<= 0]. *)
Theorem C9_lnprob_nonpositive st samples :
  state_wf st -> rectangular samples -> List.length samples = 5%nat ->
  (0 < n_cands samples)%nat ->
  is_finite (alpha0 st) -> is_finite (delta0 st) ->
  Forall is_finite (epochs st) -> Forall is_finite (X st) ->
  Forall is_finite (Y st) -> Forall is_finite (Z st) ->
  Forall is_finite (alpha_abs_st st) -> Forall is_finite (delta_abs st) ->
  Forall is_finite (cos_phi st) -> Forall is_finite (sin_phi st) ->
  Forall is_finite (eps st) -> Forall (fun e => e <> Fin 0) (eps st) ->
  Forall (Forall is_finite) samples ->
  exists v,
    compute_lnprob calc_orbit st samples false = PyOk (RetArray v) /\
    forall j, (j < n_cands samples)%nat ->
      (exists p, nth j (nth 4 samples []) NaN = Fin p /\ 0 < p) ->
      ext_le0 (nth j v NaN).
Proof.
  intros Hwf Hrect HP HM Ha0 Hd0 He HX HY HZ Haa Hda Hc Hs Heps Heps0 Hsf.
  pose proof Hwf as (L1 & L2 & L3 & L4 & L5 & L6 & L7 & L8 & L9 & L10).
  rewrite compute_lnprob_map by (auto using state_wf_eps; lia).
  eexists; split; [reflexivity|].
  intros j Hj (p & Hp & Hp0).
  rewrite nth_map_seq by exact Hj.
  unfold lnprob1. cbn [candidate_at c_plx]. rewrite Hp. simpl ele0.
  destruct (Rle_dec p 0) as [Hle|_]; [lra|].
  unfold chi2_lnprob1.
  destruct (fold_eadd_nonneg
              (map (fun i => esq (ediv (epoch_dist1 calc_orbit st (candidate_at samples j) i)
                                       (nth i (eps st) NaN)))
                   (seq 0 (List.length (epochs st)))) 0) as (s & Hsum & Hs0).
  { lra. }
  { apply Forall_forall. intros y Hy. apply in_map_iff in Hy as (i & <- & Hi).
    apply in_seq in Hi.
    destruct (epoch_dist1_finite calc_orbit st (candidate_at samples j) i)
      as (d & Hd & Hdpos);
      try (unfold candidate_at; rewrite HP; reflexivity);
      try assumption;
      try (match goal with
           | |- is_finite (nth i ?l NaN) =>
               destruct (nth_fin l i) as [r Hr]; [assumption | lia | rewrite Hr; exact I]
           end);
      try (unfold candidate_at; simpl; apply nth_row_finite; auto; lia).
    rewrite Hd.
    destruct (nth_fin (eps st) i Heps ltac:(lia)) as [e He'].
    rewrite He'.
    assert (He0 : e <> 0).
    { rewrite Forall_forall in Heps0. intro E. subst e.
      apply (Heps0 (nth i (eps st) NaN)); [apply nth_In; lia | exact He']. }
    simpl. destruct (Req_dec_T e 0) as [E|_]; [contradiction|].
    eexists; split; [reflexivity|]. apply Rle_0_sqr. }
  unfold np_sum. rewrite Hsum. simpl. lra.
Qed.

(** C10: in a 13-row batch, a candidate with [mtot = 0] and parallax [> 0]
    raises nothing: the call returns its array, and the candidate's entry is
    not finite ([-m_secondary / 0] is infinite or NaN and reaches chi2),
    for an observation set with at least one epoch. *)
Theorem C10_zero_total_mass st samples j :
  state_wf st -> rectangular samples -> List.length samples = 13%nat ->
  (j < n_cands samples)%nat -> (0 < List.length (epochs st))%nat ->
  nth j (nth 11 samples []) NaN = Fin 0 ->
  (exists p, nth j (nth 4 samples []) NaN = Fin p /\ 0 < p) ->
  exists v,
    compute_lnprob calc_orbit st samples false = PyOk (RetArray v) /\
    List.length v = n_cands samples /\ not_finite (nth j v NaN).
Proof.
  intros Hwf Hrect HP Hj HN Hm (p & Hp & Hp0).
  rewrite compute_lnprob_map by (auto using state_wf_eps; lia).
  eexists; split; [reflexivity|]; split; [len_tac|].
  rewrite nth_map_seq by exact Hj.
  unfold lnprob1. cbn [candidate_at c_plx]. rewrite Hp. simpl ele0.
  destruct (Rle_dec p 0) as [Hle|_]; [lra|].
  unfold chi2_lnprob1. apply emul_nf_r, np_sum_nf.
  eexists; split.
  - apply in_map_iff. exists 0%nat; split; [reflexivity|]. apply in_seq; lia.
  - unfold esq. apply emul_nf_l, ediv_nf_l.
    unfold epoch_dist1, candidate_at. rewrite HP. cbn [c_orbit mtot1 m11 Nat.eqb].
    rewrite Hm.
    apply eabs_nf, eadd_nf_l, emul_nf_l. unfold esub.
    apply eadd_nf_r, eopp_nf, eadd_nf_r, emul_nf_r, ediv_zero_nf.
Qed.

End Massless.

Section Reconstruction.

Variable time_decimalyear : ext -> ext.
Variable time_mjd : ext -> ext.
Variable earth_barycentric_pos : ext -> ext * ext * ext.
Variable calc_orbit :
  ext -> ext -> ext -> ext -> ext -> ext -> ext -> ext -> ext -> ext * ext * ext.

Lemma run_calls_state st calls : snd (run_calls calc_orbit st calls) = st.
Proof.
  induction calls as [|[samples negative] calls IH]; simpl; [reflexivity|].
  destruct (run_calls calc_orbit st calls) as [rs st']; simpl in *; exact IH.
Qed.

(** C3: the constructor sets, for every epoch [i],
    [alpha_abs_i = R_i cos_phi_i + plx0 (X_i sin a0 - Y_i cos a0) + (epoch_i - 1991.25) pmRA0]
    and [delta_abs_i = R_i sin_phi_i + plx0 (X_i cos a0 sin d0 + Y_i sin a0 sin d0
    - Z_i cos d0) + (epoch_i - 1991.25) pmDec0], with [a0], [d0] the
    catalogue RA/Dec in degrees passed through [np.radians]; after any
    sequence of [compute_lnprob] calls the instance still holds them. *)
Theorem C3_reconstruction hip_cat iad calls i :
  (i < List.length iad)%nat ->
  let times := map (fun r => eadd (iad_1 r) (Fin 1991.25)) iad in
  let st := snd (run_calls calc_orbit
                   (init time_decimalyear time_mjd earth_barycentric_pos hip_cat iad)
                   calls) in
  nth i (alpha_abs_st st) NaN = spec_alpha_abs st i /\
  nth i (delta_abs st) NaN = spec_delta_abs st i /\
  plx0 st = Plx hip_cat /\ pm_ra0 st = pmRA hip_cat /\ pm_dec0 st = pmDE hip_cat /\
  alpha0 st = RArad hip_cat /\ delta0 st = DErad hip_cat /\
  epochs st = map time_decimalyear times /\
  R_ st = map iad_5 iad /\ cos_phi st = map iad_3 iad /\ sin_phi st = map iad_4 iad /\
  X st = map fst3 (map earth_barycentric_pos times) /\
  Y st = map snd3 (map earth_barycentric_pos times) /\
  Z st = map thd3 (map earth_barycentric_pos times).
Proof.
  intros Hi times st. subst st. rewrite run_calls_state.
  unfold init, spec_alpha_abs, spec_delta_abs; simpl.
  split; [nth_tac; reflexivity|].
  split; [nth_tac; reflexivity|].
  repeat split.
Qed.

End Reconstruction.

(** ** Witnesses: the claims' hypotheses hold at concrete inputs *)

Lemma fixture_state_wf : state_wf fixture_state.
Proof. unfold state_wf; simpl; repeat split. Qed.

Lemma C1_witness :
  ele0 (nth 0 (nth 4 batch5_neg []) NaN) = true /\
  exists v, compute_lnprob no_orbit fixture_state batch5_neg false = PyOk (RetArray v) /\
            nth 0 v NaN = NInf.
Proof.
  assert (Hplx : ele0 (nth 0 (nth 4 batch5_neg []) NaN) = true)
    by (simpl; destruct (Rle_dec (-1) 0); [reflexivity | lra]).
  split; [exact Hplx|].
  apply (C1_nonpositive_plx_neg_inf no_orbit fixture_state batch5_neg 0).
  - exact fixture_state_wf.
  - repeat constructor.
  - left; reflexivity.
  - unfold batch5_neg, n_cands; simpl; lia.
  - exact Hplx.
Defined.

Lemma C2_witness :
  exists v,
    compute_lnprob no_orbit fixture_state batch5_pos false = PyOk (RetArray v) /\
    List.length v = n_cands batch5_pos /\
    forall j, (j < n_cands batch5_pos)%nat ->
      ele0 (nth j (nth 4 batch5_pos []) NaN) = false ->
      nth j v NaN =
      spec_lnprob fixture_state
        (fun i => spec_dist fixture_state i
                    (spec_alpha_C fixture_state (candidate_at batch5_pos j) i)
                    (spec_delta_C fixture_state (candidate_at batch5_pos j) i)).
Proof.
  apply (C2_lnprob_formula no_orbit fixture_state batch5_pos).
  - exact fixture_state_wf.
  - repeat constructor.
  - reflexivity.
  - unfold batch5_pos, n_cands; simpl; lia.
Defined.

Lemma C3_witness :
  let times := map (fun r => eadd (iad_1 r) (Fin 1991.25)) fixture_iad in
  let st := snd (run_calls no_orbit
                   (init (fun t => t) (fun t => t) (fun _ => (Fin 1, Fin 0, Fin 0))
                      fixture_cat fixture_iad)
                   [(batch5_pos, false)]) in
  nth 0 (alpha_abs_st st) NaN = spec_alpha_abs st 0 /\
  nth 0 (delta_abs st) NaN = spec_delta_abs st 0 /\
  plx0 st = Plx fixture_cat /\ pm_ra0 st = pmRA fixture_cat /\
  pm_dec0 st = pmDE fixture_cat /\
  alpha0 st = RArad fixture_cat /\ delta0 st = DErad fixture_cat /\
  epochs st = map (fun t => t) times /\
  R_ st = map iad_5 fixture_iad /\ cos_phi st = map iad_3 fixture_iad /\
  sin_phi st = map iad_4 fixture_iad /\
  X st = map fst3 (map (fun _ => (Fin 1, Fin 0, Fin 0)) times) /\
  Y st = map snd3 (map (fun _ => (Fin 1, Fin 0, Fin 0)) times) /\
  Z st = map thd3 (map (fun _ => (Fin 1, Fin 0, Fin 0)) times).
Proof.
  apply (C3_reconstruction (fun t => t) (fun t => t) (fun _ => (Fin 1, Fin 0, Fin 0))
           no_orbit fixture_cat fixture_iad [(batch5_pos, false)] 0).
  simpl; lia.
Defined.

Lemma C4_witness :
  compute_lnprob no_orbit fixture_state (zero_mass_batch (Fin 1)) false =
  compute_lnprob no_orbit fixture_state (firstn 5 (zero_mass_batch (Fin 1))) false.
Proof.
  apply (C4_massless_companion no_orbit fixture_state (zero_mass_batch (Fin 1)) false).
  - exact fixture_state_wf.
  - repeat constructor.
  - reflexivity.
  - intros j Hj. unfold zero_mass_batch, n_cands in Hj; simpl in Hj.
    destruct j as [|j]; [|lia]. simpl.
    split; [reflexivity|]. split; [intro E; injection E; lra | discriminate].
  - intros i j _ _. unfold orbit_model_at, no_orbit. simpl. split; exact I.
Defined.

Lemma C7_witness :
  exists v,
    compute_lnprob no_orbit fixture_state batch5_neg true = PyOk (RetArray v) /\
    List.length v = n_cands batch5_neg /\
    forall j, (j < n_cands batch5_neg)%nat ->
      nth j v NaN =
      if ele0 (nth j (nth 4 batch5_neg []) NaN) then PInf
      else eopp (chi2_lnprob1 no_orbit fixture_state (candidate_at batch5_neg j)).
Proof.
  apply (C7_output_entries no_orbit fixture_state batch5_neg true).
  - exact fixture_state_wf.
  - repeat constructor.
  - left; reflexivity.
  - unfold batch5_neg, n_cands; simpl; lia.
Defined.

Lemma C8_witness :
  (forall i j, (j < n_cands (zero_mass_batch (Fin 1)))%nat ->
     nth j (epoch_dist no_orbit fixture_state
              (nth 0 (zero_mass_batch (Fin 1)) []) (nth 1 (zero_mass_batch (Fin 1)) [])
              (nth 2 (zero_mass_batch (Fin 1)) []) (nth 3 (zero_mass_batch (Fin 1)) [])
              (nth 4 (zero_mass_batch (Fin 1)) [])
              (Some (orbit_rows_of (zero_mass_batch (Fin 1)))) i) NaN =
     let c := candidate_at (zero_mass_batch (Fin 1)) j in
     let pull := spec_pull no_orbit fixture_state c
                   (orbit_at j (orbit_rows_of (zero_mass_batch (Fin 1)))) i in
     spec_dist fixture_state i (eadd (spec_alpha_C fixture_state c i) (fst pull))
                               (eadd (spec_delta_C fixture_state c i) (snd pull))) /\
  exists v,
    compute_lnprob no_orbit fixture_state (zero_mass_batch (Fin 1)) false
      = PyOk (RetArray v) /\
    forall j, (j < n_cands (zero_mass_batch (Fin 1)))%nat ->
      ele0 (nth j (nth 4 (zero_mass_batch (Fin 1)) []) NaN) = false ->
      nth j v NaN =
      spec_lnprob fixture_state (fun i =>
        let c := candidate_at (zero_mass_batch (Fin 1)) j in
        let pull := spec_pull no_orbit fixture_state c
                      (orbit_at j (orbit_rows_of (zero_mass_batch (Fin 1)))) i in
        spec_dist fixture_state i (eadd (spec_alpha_C fixture_state c i) (fst pull))
                                  (eadd (spec_delta_C fixture_state c i) (snd pull))).
Proof.
  apply (C8_orbit_perturbation no_orbit fixture_state (zero_mass_batch (Fin 1))).
  - exact fixture_state_wf.
  - repeat constructor.
  - reflexivity.
  - unfold zero_mass_batch, n_cands; simpl; lia.
Defined.

Lemma C9_witness :
  exists v,
    compute_lnprob no_orbit fixture_state batch5_pos false = PyOk (RetArray v) /\
    forall j, (j < n_cands batch5_pos)%nat ->
      (exists p, nth j (nth 4 batch5_pos []) NaN = Fin p /\ 0 < p) ->
      ext_le0 (nth j v NaN).
Proof.
  apply (C9_lnprob_nonpositive no_orbit fixture_state batch5_pos);
    try exact fixture_state_wf; try (simpl; exact I);
    try (unfold batch5_pos, n_cands; simpl; lia);
    try (simpl; repeat constructor; fail).
  simpl. repeat constructor; intro E; injection E; lra.
Defined.

Lemma C10_witness :
  exists v,
    compute_lnprob no_orbit fixture_state (zero_mass_batch (Fin 0)) false
      = PyOk (RetArray v) /\
    List.length v = n_cands (zero_mass_batch (Fin 0)) /\ not_finite (nth 0 v NaN).
Proof.
  apply (C10_zero_total_mass no_orbit fixture_state (zero_mass_batch (Fin 0)) 0).
  - exact fixture_state_wf.
  - repeat constructor.
  - reflexivity.
  - unfold zero_mass_batch, n_cands; simpl; lia.
  - simpl; lia.
  - reflexivity.
  - exists 1; split; [reflexivity | lra].
Defined.

(** ** Further properties of the code *)

(** *** List and batch lemmas *)

Lemma map_as_seq {A B} (f : A -> B) (l : list A) (d : A) :
  map f l = map (fun k => f (nth k l d)) (seq 0 (List.length l)).
Proof.
  induction l as [|x l IH]; [reflexivity|].
  simpl. f_equal. rewrite IH, <- seq_shift, map_map. reflexivity.
Qed.

Lemma map_seq_offset {A} (f : nat -> A) s n :
  map f (seq s n) = map (fun k => f (s + k)%nat) (seq 0 n).
Proof.
  revert f s; induction n as [|n IH]; intros f s; [reflexivity|].
  simpl. rewrite Nat.add_0_r. f_equal.
  rewrite (IH f (S s)), (IH _ 1%nat). apply map_ext. intro k. f_equal; lia.
Qed.

Lemma nth_nil_any {A} n (d : A) : nth n [] d = d.
Proof. destruct n; reflexivity. Qed.

Lemma select_cols_length samples idx :
  List.length (select_cols samples idx) = List.length samples.
Proof. unfold select_cols. apply length_map. Qed.

Lemma select_cols_nth samples idx m k :
  (k < List.length idx)%nat ->
  nth k (nth m (select_cols samples idx) []) NaN =
  nth (nth k idx 0%nat) (nth m samples []) NaN.
Proof.
  intro Hk. unfold select_cols.
  destruct (Nat.lt_ge_cases m (List.length samples)) as [Hm|Hm].
  - rewrite (nth_map_lt _ _ _ _ []) by exact Hm.
    rewrite (nth_map_lt _ _ _ _ 0%nat) by exact Hk. reflexivity.
  - rewrite (nth_overflow (map _ samples)) by (rewrite length_map; lia).
    rewrite (nth_overflow samples) by lia. rewrite !nth_nil_any. reflexivity.
Qed.

Lemma select_cols_rect samples idx :
  (0 < List.length samples)%nat -> rectangular (select_cols samples idx) /\
  n_cands (select_cols samples idx) = List.length idx.
Proof.
  intro Hs. destruct samples as [|r0 rest]; simpl in Hs; [lia|].
  unfold rectangular, n_cands, select_cols. simpl. rewrite length_map.
  split; [|reflexivity].
  constructor; [apply length_map|].
  apply Forall_forall. intros r Hr. apply in_map_iff in Hr as (x & <- & _).
  apply length_map.
Qed.

Lemma candidate_at_select samples idx k :
  (k < List.length idx)%nat ->
  candidate_at (select_cols samples idx) k = candidate_at samples (nth k idx 0%nat).
Proof.
  intro Hk. unfold candidate_at. rewrite select_cols_length, !select_cols_nth by exact Hk.
  reflexivity.
Qed.

Lemma concat_cols_length a b :
  List.length a = List.length b -> List.length (concat_cols a b) = List.length a.
Proof.
  revert b; induction a as [|r a IH]; intros [|s b] H; simpl in *; try lia.
  f_equal. apply IH. lia.
Qed.

Lemma concat_cols_nth a b m :
  List.length a = List.length b ->
  nth m (concat_cols a b) [] = nth m a [] ++ nth m b [].
Proof.
  revert b m; induction a as [|r a IH]; intros [|s b] m H; simpl in *; try lia.
  - destruct m; reflexivity.
  - destruct m; [reflexivity|]. apply IH. lia.
Qed.

Lemma concat_cols_nth_nth a b m k :
  rectangular a -> rectangular b -> List.length a = List.length b ->
  nth k (nth m (concat_cols a b) []) NaN =
  if Nat.ltb k (n_cands a) then nth k (nth m a []) NaN
  else nth (k - n_cands a) (nth m b []) NaN.
Proof.
  intros Ha Hb Hl. rewrite concat_cols_nth by exact Hl.
  destruct (Nat.lt_ge_cases m (List.length a)) as [Hm|Hm].
  - assert (La : List.length (nth m a []) = n_cands a) by (apply rect_row; assumption).
    destruct (Nat.ltb_spec k (n_cands a)).
    + apply app_nth1. lia.
    + rewrite app_nth2 by lia. rewrite La. reflexivity.
  - rewrite !(nth_overflow a), !(nth_overflow b) by lia.
    rewrite app_nil_l, !nth_nil_any. destruct (Nat.ltb k (n_cands a)); reflexivity.
Qed.

Lemma concat_cols_rect a b :
  rectangular a -> rectangular b -> List.length a = List.length b ->
  (0 < List.length a)%nat ->
  rectangular (concat_cols a b) /\ n_cands (concat_cols a b) = (n_cands a + n_cands b)%nat.
Proof.
  intros Ha Hb Hl Hpos.
  assert (Hn : n_cands (concat_cols a b) = (n_cands a + n_cands b)%nat).
  { destruct a as [|r a], b as [|s b]; simpl in *; try lia.
    unfold n_cands; simpl. apply length_app. }
  split; [|exact Hn].
  unfold rectangular. rewrite Hn. apply Forall_forall. intros r Hr.
  apply (In_nth _ _ []) in Hr as (m & Hm & <-).
  rewrite concat_cols_length in Hm by exact Hl.
  rewrite concat_cols_nth, length_app by exact Hl.
  rewrite (rect_row a), (rect_row b) by (assumption || lia). reflexivity.
Qed.

Lemma candidate_at_concat a b k :
  rectangular a -> rectangular b -> List.length a = List.length b ->
  candidate_at (concat_cols a b) k =
  if Nat.ltb k (n_cands a) then candidate_at a k else candidate_at b (k - n_cands a).
Proof.
  intros Ha Hb Hl. unfold candidate_at.
  rewrite concat_cols_length by exact Hl.
  rewrite !concat_cols_nth_nth by assumption.
  destruct (Nat.ltb k (n_cands a)); [reflexivity|]. rewrite Hl. reflexivity.
Qed.

(** *** NaN propagation *)

Lemma eadd_nan_l x : eadd NaN x = NaN.
Proof. destruct x; reflexivity. Qed.

Lemma eadd_nan_r x : eadd x NaN = NaN.
Proof. destruct x; reflexivity. Qed.

Lemma emul_nan_l x : emul NaN x = NaN.
Proof. destruct x; reflexivity. Qed.

Lemma emul_nan_r x : emul x NaN = NaN.
Proof. destruct x; reflexivity. Qed.

Lemma eopp_nan : eopp NaN = NaN.
Proof. reflexivity. Qed.

Lemma fold_eadd_nan l : fold_left eadd l NaN = NaN.
Proof. induction l as [|y l IH]; [reflexivity|]. cbn [fold_left]. rewrite eadd_nan_l. exact IH. Qed.

Ltac nan_tac :=
  repeat (rewrite ?emul_nan_l, ?emul_nan_r, ?eadd_nan_l, ?eadd_nan_r, ?eopp_nan).

Lemma epoch_dist1_nan calc_orbit st c i :
  (c_pm_ra c = NaN \/ c_pm_dec c = NaN \/ c_alpha_H0 c = NaN \/
   c_delta_H0 c = NaN \/ c_plx c = NaN) ->
  epoch_dist1 calc_orbit st c i = NaN.
Proof.
  intro H. unfold epoch_dist1. cbv zeta. unfold esub.
  destruct H as [H|[H|[H|[H|H]]]]; rewrite H;
    destruct (c_orbit c) as [o|]; cbn iota beta; nan_tac; reflexivity.
Qed.

(** *** Sums of squares *)

Lemma fold_eadd_zero l a :
  0 <= a -> Forall (fun y => exists r, y = Fin r /\ 0 <= r) l ->
  exists s, fold_left eadd l (Fin a) = Fin s /\ 0 <= s /\
    (s = 0 <-> a = 0 /\ Forall (fun y => y = Fin 0) l).
Proof.
  revert a; induction l as [|y l IH]; intros a Ha Hl; simpl.
  - exists a. repeat split; auto; intros [? _]; assumption.
  - inversion Hl as [|? ? (r & -> & Hr) Hl']; subst. simpl.
    destruct (IH (a + r) ltac:(lra) Hl') as (s & Hs & Hs0 & Hiff).
    exists s. split; [exact Hs|]. split; [exact Hs0|].
    rewrite Hiff. split.
    + intros [Har Hz]. split; [lra|]. constructor; [f_equal; lra | exact Hz].
    + intros [Ha0 Hz]. inversion Hz as [|? ? Hr0 Hz']; subst.
      injection Hr0 as Hr0. split; [lra | exact Hz'].
Qed.

Lemma sq_div_zero r e : e <> 0 -> (r / e * (r / e) = 0 <-> r = 0).
Proof.
  intro He. split.
  - intro H. apply Rmult_integral in H as [H|H];
      [|]; unfold Rdiv in H; apply Rmult_integral in H as [H|H]; auto;
      apply Rinv_neq_0_compat in He; contradiction.
  - intros ->. unfold Rdiv. ring.
Qed.

Lemma chi2_lnprob1_value calc_orbit st c :
  List.length (eps st) = List.length (epochs st) ->
  Forall is_finite (eps st) -> Forall (fun e => e <> Fin 0) (eps st) ->
  (forall i, (i < List.length (epochs st))%nat ->
     exists r, epoch_dist1 calc_orbit st c i = Fin r /\ 0 <= r) ->
  exists s, chi2_lnprob1 calc_orbit st c = Fin (-0.5 * s) /\ 0 <= s /\
    (s = 0 <-> forall i, (i < List.length (epochs st))%nat ->
                 epoch_dist1 calc_orbit st c i = Fin 0).
Proof.
  intros Hl Heps Heps0 Hd.
  assert (Hterm : forall i, (i < List.length (epochs st))%nat ->
            exists r e, epoch_dist1 calc_orbit st c i = Fin r /\ 0 <= r /\
                        nth i (eps st) NaN = Fin e /\ e <> 0).
  { intros i Hi. destruct (Hd i Hi) as (r & Hr & Hr0).
    destruct (nth_fin (eps st) i Heps ltac:(lia)) as [e He].
    exists r, e. repeat split; try assumption.
    intro E. subst e. rewrite Forall_forall in Heps0.
    apply (Heps0 (nth i (eps st) NaN)); [apply nth_In; lia | exact He]. }
  destruct (fold_eadd_zero
              (map (fun i => esq (ediv (epoch_dist1 calc_orbit st c i) (nth i (eps st) NaN)))
                   (seq 0 (List.length (epochs st)))) 0) as (s & Hs & Hs0 & Hiff).
  { lra. }
  { apply Forall_forall. intros y Hy. apply in_map_iff in Hy as (i & <- & Hi).
    apply in_seq in Hi. destruct (Hterm i ltac:(lia)) as (r & e & Hr & Hr0 & He & He0).
    rewrite Hr, He. simpl. destruct (Req_dec_T e 0) as [E|_]; [contradiction|].
    eexists; split; [reflexivity|]. apply Rle_0_sqr. }
  exists s. split; [unfold chi2_lnprob1, np_sum; rewrite Hs; reflexivity|].
  split; [exact Hs0|].
  rewrite Hiff, Forall_map, Forall_forall. split.
  - intros [_ Hz] i Hi. destruct (Hterm i Hi) as (r & e & Hr & Hr0 & He & He0).
    assert (Hin : In i (seq 0 (List.length (epochs st)))) by (apply in_seq; lia).
    specialize (Hz i Hin).
    rewrite Hr, He in Hz. simpl in Hz. destruct (Req_dec_T e 0) as [E|_]; [contradiction|].
    injection Hz as Hz. apply sq_div_zero in Hz; [|exact He0]. rewrite Hr, Hz. reflexivity.
  - intros Hz. split; [reflexivity|]. intros i Hi. apply in_seq in Hi.
    destruct (Hterm i ltac:(lia)) as (r & e & Hr & Hr0 & He & He0).
    rewrite Hz by lia. rewrite He. simpl. destruct (Req_dec_T e 0) as [E|_]; [contradiction|].
    simpl. f_equal. unfold Rdiv. ring.
Qed.

Lemma epoch_dist1_finite_orbit calc_orbit st c o i :
  c_orbit c = Some o ->
  is_finite (alpha0 st) -> is_finite (delta0 st) ->
  is_finite (nth i (X st) NaN) -> is_finite (nth i (Y st) NaN) ->
  is_finite (nth i (Z st) NaN) -> is_finite (nth i (epochs st) NaN) ->
  is_finite (nth i (alpha_abs_st st) NaN) -> is_finite (nth i (delta_abs st) NaN) ->
  is_finite (nth i (cos_phi st) NaN) -> is_finite (nth i (sin_phi st) NaN) ->
  is_finite (c_pm_ra c) -> is_finite (c_pm_dec c) -> is_finite (c_alpha_H0 c) ->
  is_finite (c_delta_H0 c) -> is_finite (c_plx c) -> is_finite (m11 o) ->
  (exists b, mtot1 o = Fin b /\ b <> 0) ->
  is_finite (fst3 (calc_orbit (nth i (epochs_mjd st) NaN) (sma1 o) (ecc1 o) (inc1 o)
                     (aop1 o) (pan1 o) (tau1 o) (c_plx c) (mtot1 o))) ->
  is_finite (snd3 (calc_orbit (nth i (epochs_mjd st) NaN) (sma1 o) (ecc1 o) (inc1 o)
                     (aop1 o) (pan1 o) (tau1 o) (c_plx c) (mtot1 o))) ->
  exists r, epoch_dist1 calc_orbit st c i = Fin r /\ 0 <= r.
Proof.
  intros Hc. unfold epoch_dist1. rewrite Hc. intros Ha0 Hd0 HX HY HZ He Haa Hda Hcp Hsp Hp1 Hp2 Hp3 Hp4 Hp5 Hm (b & Hb & Hb0).
  destruct (calc_orbit _ _ _ _ _ _ _ _ _) as [[o1 o2] o3]. simpl fst3. simpl snd3.
  intros H1 H2. rewrite Hb. fin_cases. simpl.
  destruct (Req_dec_T b 0) as [E|_]; [contradiction|].
  eexists; split; [reflexivity | apply Rabs_pos].
Qed.

(** the per-epoch distances of a candidate of a finite 5-row batch *)
Lemma cand5_dist_fin calc_orbit st samples j :
  state_wf st -> rectangular samples -> List.length samples = 5%nat ->
  (j < n_cands samples)%nat ->
  is_finite (alpha0 st) -> is_finite (delta0 st) ->
  Forall is_finite (epochs st) -> Forall is_finite (X st) ->
  Forall is_finite (Y st) -> Forall is_finite (Z st) ->
  Forall is_finite (alpha_abs_st st) -> Forall is_finite (delta_abs st) ->
  Forall is_finite (cos_phi st) -> Forall is_finite (sin_phi st) ->
  Forall (Forall is_finite) samples ->
  forall i, (i < List.length (epochs st))%nat ->
    exists r, epoch_dist1 calc_orbit st (candidate_at samples j) i = Fin r /\ 0 <= r.
Proof.
  intros Hwf Hrect HP Hj Ha0 Hd0 He HX HY HZ Haa Hda Hc Hs Hsf i Hi.
  pose proof Hwf as (L1 & L2 & L3 & L4 & L5 & L6 & L7 & L8 & L9 & L10).
  apply epoch_dist1_finite;
    try (unfold candidate_at; rewrite HP; reflexivity);
    try assumption;
    try (match goal with
         | |- is_finite (nth i ?l NaN) =>
             destruct (nth_fin l i) as [r Hr]; [assumption | lia | rewrite Hr; exact I]
         end);
    try (unfold candidate_at; simpl; apply nth_row_finite; auto; lia).
Qed.

(** the same for a 13-row batch whose orbit model returns finite offsets *)
Lemma cand13_dist_fin calc_orbit st samples j :
  state_wf st -> rectangular samples -> List.length samples = 13%nat ->
  (j < n_cands samples)%nat ->
  is_finite (alpha0 st) -> is_finite (delta0 st) ->
  Forall is_finite (epochs st) -> Forall is_finite (X st) ->
  Forall is_finite (Y st) -> Forall is_finite (Z st) ->
  Forall is_finite (alpha_abs_st st) -> Forall is_finite (delta_abs st) ->
  Forall is_finite (cos_phi st) -> Forall is_finite (sin_phi st) ->
  Forall (Forall is_finite) samples ->
  (forall i, (i < List.length (epochs st))%nat ->
     is_finite (fst3 (orbit_model_at calc_orbit st samples i j)) /\
     is_finite (snd3 (orbit_model_at calc_orbit st samples i j))) ->
  nth j (nth 11 samples []) NaN <> Fin 0 ->
  forall i, (i < List.length (epochs st))%nat ->
    exists r, epoch_dist1 calc_orbit st (candidate_at samples j) i = Fin r /\ 0 <= r.
Proof.
  intros Hwf Hrect HP Hj Ha0 Hd0 He HX HY HZ Haa Hda Hc Hs Hsf Horb Hm i Hi.
  pose proof Hwf as (L1 & L2 & L3 & L4 & L5 & L6 & L7 & L8 & L9 & L10).
  destruct (Horb i Hi) as [Ho1 Ho2].
  eapply epoch_dist1_finite_orbit;
    try (unfold candidate_at; rewrite HP; reflexivity);
    try assumption;
    try (match goal with
         | |- is_finite (nth i ?l NaN) =>
             destruct (nth_fin l i) as [r Hr]; [assumption | lia | rewrite Hr; exact I]
         end);
    try (unfold candidate_at; simpl; apply nth_row_finite; auto; lia).
  simpl. pose proof (nth_row_finite samples 11 j Hrect Hsf ltac:(lia) Hj) as Hf11.
  destruct (nth j (nth 11 samples []) NaN) as [b| | |]; try contradiction.
  exists b. split; [reflexivity|]. intro E. subst b. contradiction.
Qed.

Section Extras.

Variable calc_orbit :
  ext -> ext -> ext -> ext -> ext -> ext -> ext -> ext -> ext -> ext * ext * ext.

(** Candidates are scored independently: evaluating the columns [idx] of
    a batch ([samples[:, idx]], in any order, repeats allowed) returns the
    entries [idx] of the batch's output. *)
Theorem compute_lnprob_select_cols st samples idx negative :
  state_wf st -> rectangular samples ->
  (List.length samples = 5 \/ List.length samples = 13)%nat ->
  (0 < n_cands samples)%nat -> idx <> [] ->
  Forall (fun j => j < n_cands samples)%nat idx ->
  exists v,
    compute_lnprob calc_orbit st samples negative = PyOk (RetArray v) /\
    compute_lnprob calc_orbit st (select_cols samples idx) negative =
    PyOk (RetArray (map (fun j => nth j v NaN) idx)).
Proof.
  intros Hwf Hr HP HM Hidx Hin.
  assert (Hs : (0 < List.length samples)%nat) by lia.
  destruct (select_cols_rect samples idx Hs) as [Hr' Hn'].
  rewrite compute_lnprob_map by (auto using state_wf_eps; lia).
  eexists; split; [reflexivity|].
  rewrite compute_lnprob_map;
    [| exact Hr' | rewrite select_cols_length; exact HP
     | rewrite Hn'; destruct idx; simpl; [congruence | lia] | auto using state_wf_eps].
  apply (f_equal (fun v => PyOk (RetArray v))). rewrite Hn'.
  rewrite (map_as_seq (fun j => nth j _ NaN) idx 0%nat).
  apply map_ext_in. intros k Hk. apply in_seq in Hk.
  rewrite candidate_at_select by lia.
  rewrite nth_map_seq; [reflexivity|].
  rewrite Forall_forall in Hin. apply Hin, nth_In. lia.
Qed.

(** Splitting a batch along the candidate axis does not change any entry:
    the output of [np.concatenate((a, b), axis=1)] is the output of [a]
    followed by the output of [b]. *)
Theorem compute_lnprob_concat_cols st a b negative :
  state_wf st -> rectangular a -> rectangular b -> List.length a = List.length b ->
  (List.length a = 5 \/ List.length a = 13)%nat ->
  (0 < n_cands a)%nat -> (0 < n_cands b)%nat ->
  exists va vb,
    compute_lnprob calc_orbit st a negative = PyOk (RetArray va) /\
    compute_lnprob calc_orbit st b negative = PyOk (RetArray vb) /\
    compute_lnprob calc_orbit st (concat_cols a b) negative = PyOk (RetArray (va ++ vb)).
Proof.
  intros Hwf Ha Hb Hl HP HMa HMb.
  destruct (concat_cols_rect a b Ha Hb Hl ltac:(lia)) as [Hc Hn].
  rewrite compute_lnprob_map by (auto using state_wf_eps; lia).
  rewrite (compute_lnprob_map _ _ b) by (auto using state_wf_eps; lia).
  rewrite compute_lnprob_map;
    [| exact Hc | rewrite concat_cols_length; assumption | lia | auto using state_wf_eps].
  do 2 eexists; split; [reflexivity|]; split; [reflexivity|].
  apply (f_equal (fun v => PyOk (RetArray v))).
  rewrite Hn, seq_app, map_app. f_equal.
  - apply map_ext_in. intros k Hk. apply in_seq in Hk.
    rewrite candidate_at_concat by assumption.
    replace (Nat.ltb k (n_cands a)) with true by (symmetry; apply Nat.ltb_lt; lia).
    reflexivity.
  - rewrite map_seq_offset. apply map_ext. intro k. simpl.
    rewrite candidate_at_concat by assumption.
    replace (Nat.ltb (n_cands a + k) (n_cands a)) with false
      by (symmetry; apply Nat.ltb_ge; lia).
    f_equal. f_equal. lia.
Qed.

(** A 5-row batch with no candidate raises [AxisError]: the chi-square
    list is empty, and [np.sum([], axis=1)] has no axis 1. *)
Theorem compute_lnprob_no_candidates st samples negative :
  List.length samples = 5%nat -> n_cands samples = 0%nat ->
  compute_lnprob calc_orbit st samples negative = PyRaise AxisError.
Proof.
  intros HP HM.
  destruct samples as [|r0 [|r1 [|r2 [|r3 [|r4 [|r5 rest]]]]]]; simpl in HP; try lia.
  unfold n_cands in HM; simpl in HM.
  unfold compute_lnprob, lnprob_body; simpl. rewrite HM. reflexivity.
Qed.


(** A NaN among a candidate's five astrometric parameters is not caught:
    if its parallax is not [<= 0] (a NaN parallax is not), its entry is NaN,
    in both modes, for an IAD with at least one epoch. *)
Theorem compute_lnprob_nan_param st samples negative j :
  state_wf st -> rectangular samples ->
  (List.length samples = 5 \/ List.length samples = 13)%nat ->
  (j < n_cands samples)%nat -> (0 < List.length (epochs st))%nat ->
  ele0 (nth j (nth 4 samples []) NaN) = false ->
  (exists k, (k < 5)%nat /\ nth j (nth k samples []) NaN = NaN) ->
  exists v,
    compute_lnprob calc_orbit st samples negative = PyOk (RetArray v) /\
    nth j v NaN = NaN.
Proof.
  intros Hwf Hr HP Hj HN Hplx (k & Hk & Hnan).
  rewrite compute_lnprob_map by (auto using state_wf_eps; lia).
  eexists; split; [reflexivity|].
  rewrite nth_map_seq by exact Hj.
  unfold lnprob1. cbn [candidate_at c_plx]. rewrite Hplx.
  unfold chi2_lnprob1.
  destruct (List.length (epochs st)) as [|N] eqn:HN'; [lia|].
  simpl seq. cbn [map]. rewrite epoch_dist1_nan.
  - unfold np_sum. simpl fold_left. rewrite ?eadd_nan_r, fold_eadd_nan.
    destruct negative; reflexivity.
  - unfold candidate_at; simpl.
    destruct k as [|[|[|[|[|k]]]]]; try lia; tauto.
Qed.

(** For finite inputs and nonzero [eps], a 5-row candidate with parallax
    [> 0] gets [0], the largest value, exactly when its predicted position
    lies on every scan line ([dist[i, j] = 0] at every epoch). *)
Theorem compute_lnprob_zero_iff_exact_fit st samples :
  state_wf st -> rectangular samples -> List.length samples = 5%nat ->
  (0 < n_cands samples)%nat ->
  is_finite (alpha0 st) -> is_finite (delta0 st) ->
  Forall is_finite (epochs st) -> Forall is_finite (X st) ->
  Forall is_finite (Y st) -> Forall is_finite (Z st) ->
  Forall is_finite (alpha_abs_st st) -> Forall is_finite (delta_abs st) ->
  Forall is_finite (cos_phi st) -> Forall is_finite (sin_phi st) ->
  Forall is_finite (eps st) -> Forall (fun e => e <> Fin 0) (eps st) ->
  Forall (Forall is_finite) samples ->
  exists v,
    compute_lnprob calc_orbit st samples false = PyOk (RetArray v) /\
    forall j, (j < n_cands samples)%nat ->
      (exists p, nth j (nth 4 samples []) NaN = Fin p /\ 0 < p) ->
      (nth j v NaN = Fin 0 <->
       forall i, (i < List.length (epochs st))%nat ->
         nth j (epoch_dist calc_orbit st (nth 0 samples []) (nth 1 samples [])
                  (nth 2 samples []) (nth 3 samples []) (nth 4 samples []) None i) NaN
         = Fin 0).
Proof.
  intros Hwf Hrect HP HM Ha0 Hd0 He HX HY HZ Haa Hda Hc Hs Heps Heps0 Hsf.
  rewrite compute_lnprob_map by (auto using state_wf_eps; lia).
  eexists; split; [reflexivity|].
  intros j Hj (p & Hp & Hp0).
  assert (Hlen : forall k, (k < 5)%nat -> List.length (nth k samples []) = n_cands samples)
    by (intros k Hk; apply rect_row; [exact Hrect | lia]).
  assert (Hdist : forall i,
    nth j (epoch_dist calc_orbit st (nth 0 samples []) (nth 1 samples [])
             (nth 2 samples []) (nth 3 samples []) (nth 4 samples []) None i) NaN =
    epoch_dist1 calc_orbit st (candidate_at samples j) i).
  { intro i. rewrite epoch_dist_nth by first [exact I | rewrite Hlen; lia].
    unfold cand_of, candidate_at. rewrite HP. reflexivity. }
  rewrite nth_map_seq by exact Hj.
  unfold lnprob1. cbn [candidate_at c_plx]. rewrite Hp. simpl ele0.
  destruct (Rle_dec p 0) as [Hle|_]; [lra|].
  destruct (chi2_lnprob1_value calc_orbit st (candidate_at samples j))
    as (s & Hs' & Hs0 & Hiff);
    [apply state_wf_eps, Hwf | exact Heps | exact Heps0
    | apply cand5_dist_fin; assumption |].
  fold (candidate_at samples j). rewrite Hs'.
  transitivity (s = 0).
  { split; intro H; [injection H; lra | subst s; f_equal; ring]. }
  rewrite Hiff. split; intros H i Hi; [rewrite Hdist | rewrite <- Hdist]; apply H; exact Hi.
Qed.

(** For a 13-row batch with finite inputs, nonzero [eps] and finite
    offsets from the orbit model, every candidate with parallax [> 0] and
    [mtot <> 0] gets an entry [<= 0]. *)
Theorem compute_lnprob_orbit_nonpositive st samples :
  state_wf st -> rectangular samples -> List.length samples = 13%nat ->
  (0 < n_cands samples)%nat ->
  is_finite (alpha0 st) -> is_finite (delta0 st) ->
  Forall is_finite (epochs st) -> Forall is_finite (X st) ->
  Forall is_finite (Y st) -> Forall is_finite (Z st) ->
  Forall is_finite (alpha_abs_st st) -> Forall is_finite (delta_abs st) ->
  Forall is_finite (cos_phi st) -> Forall is_finite (sin_phi st) ->
  Forall is_finite (eps st) -> Forall (fun e => e <> Fin 0) (eps st) ->
  Forall (Forall is_finite) samples ->
  (forall i j, (i < List.length (epochs st))%nat -> (j < n_cands samples)%nat ->
     is_finite (fst3 (orbit_model_at calc_orbit st samples i j)) /\
     is_finite (snd3 (orbit_model_at calc_orbit st samples i j))) ->
  exists v,
    compute_lnprob calc_orbit st samples false = PyOk (RetArray v) /\
    forall j, (j < n_cands samples)%nat ->
      (exists p, nth j (nth 4 samples []) NaN = Fin p /\ 0 < p) ->
      nth j (nth 11 samples []) NaN <> Fin 0 ->
      ext_le0 (nth j v NaN).
Proof.
  intros Hwf Hrect HP HM Ha0 Hd0 He HX HY HZ Haa Hda Hc Hs Heps Heps0 Hsf Horb.
  rewrite compute_lnprob_map by (auto using state_wf_eps; lia).
  eexists; split; [reflexivity|].
  intros j Hj (p & Hp & Hp0) Hm.
  rewrite nth_map_seq by exact Hj.
  unfold lnprob1. cbn [candidate_at c_plx]. rewrite Hp. simpl ele0.
  destruct (Rle_dec p 0) as [Hle|_]; [lra|].
  destruct (chi2_lnprob1_value calc_orbit st (candidate_at samples j))
    as (s & Hs' & Hs0 & _);
    [apply state_wf_eps, Hwf | exact Heps | exact Heps0
    | apply cand13_dist_fin; auto |].
  fold (candidate_at samples j). rewrite Hs'. simpl. lra.
Qed.

End Extras.



Section Construction.

Variable time_decimalyear : ext -> ext.
Variable time_mjd : ext -> ext.
Variable earth_barycentric_pos : ext -> ext * ext * ext.
Variable calc_orbit :
  ext -> ext -> ext -> ext -> ext -> ext -> ext -> ext -> ext -> ext * ext * ext.




End Construction.

(** ** Witnesses of the further properties *)

Lemma compute_lnprob_select_cols_witness :
  exists v,
    compute_lnprob no_orbit fixture_state batch5_two false = PyOk (RetArray v) /\
    compute_lnprob no_orbit fixture_state (select_cols batch5_two [1; 0; 1]%nat) false =
    PyOk (RetArray (map (fun j => nth j v NaN) [1; 0; 1]%nat)).
Proof.
  apply (compute_lnprob_select_cols no_orbit fixture_state batch5_two [1; 0; 1]%nat false).
  - exact fixture_state_wf.
  - repeat constructor.
  - left; reflexivity.
  - unfold batch5_two, n_cands; simpl; lia.
  - discriminate.
  - unfold batch5_two, n_cands; simpl; repeat constructor; lia.
Defined.

Lemma compute_lnprob_concat_cols_witness :
  exists va vb,
    compute_lnprob no_orbit fixture_state batch5_pos false = PyOk (RetArray va) /\
    compute_lnprob no_orbit fixture_state batch5_neg false = PyOk (RetArray vb) /\
    compute_lnprob no_orbit fixture_state (concat_cols batch5_pos batch5_neg) false =
    PyOk (RetArray (va ++ vb)).
Proof.
  apply (compute_lnprob_concat_cols no_orbit fixture_state batch5_pos batch5_neg false).
  - exact fixture_state_wf.
  - repeat constructor.
  - repeat constructor.
  - reflexivity.
  - left; reflexivity.
  - unfold batch5_pos, n_cands; simpl; lia.
  - unfold batch5_neg, n_cands; simpl; lia.
Defined.

Lemma compute_lnprob_no_candidates_witness :
  compute_lnprob no_orbit fixture_state [[]; []; []; []; []] true = PyRaise AxisError.
Proof.
  apply (compute_lnprob_no_candidates no_orbit fixture_state [[]; []; []; []; []] true);
    reflexivity.
Defined.


Lemma compute_lnprob_nan_param_witness :
  exists v,
    compute_lnprob no_orbit fixture_state batch5_nan false = PyOk (RetArray v) /\
    nth 0 v NaN = NaN.
Proof.
  apply (compute_lnprob_nan_param no_orbit fixture_state batch5_nan false 0).
  - exact fixture_state_wf.
  - repeat constructor.
  - left; reflexivity.
  - unfold batch5_nan, n_cands; simpl; lia.
  - simpl; lia.
  - simpl. destruct (Rle_dec 1 0); [lra | reflexivity].
  - exists 0%nat. split; [lia | reflexivity].
Defined.


Lemma compute_lnprob_zero_iff_exact_fit_witness :
  exists v,
    compute_lnprob no_orbit fixture_state batch5_pos false = PyOk (RetArray v) /\
    forall j, (j < n_cands batch5_pos)%nat ->
      (exists p, nth j (nth 4 batch5_pos []) NaN = Fin p /\ 0 < p) ->
      (nth j v NaN = Fin 0 <->
       forall i, (i < List.length (epochs fixture_state))%nat ->
         nth j (epoch_dist no_orbit fixture_state (nth 0 batch5_pos []) (nth 1 batch5_pos [])
                  (nth 2 batch5_pos []) (nth 3 batch5_pos []) (nth 4 batch5_pos []) None i) NaN
         = Fin 0).
Proof.
  apply (compute_lnprob_zero_iff_exact_fit no_orbit fixture_state batch5_pos);
    try exact fixture_state_wf; try (simpl; exact I);
    try (unfold batch5_pos, n_cands; simpl; lia);
    try (simpl; repeat constructor; fail).
  simpl. repeat constructor; intro E; injection E; lra.
Defined.

Lemma compute_lnprob_orbit_nonpositive_witness :
  exists v,
    compute_lnprob no_orbit fixture_state (zero_mass_batch (Fin 1)) false
      = PyOk (RetArray v) /\
    forall j, (j < n_cands (zero_mass_batch (Fin 1)))%nat ->
      (exists p, nth j (nth 4 (zero_mass_batch (Fin 1)) []) NaN = Fin p /\ 0 < p) ->
      nth j (nth 11 (zero_mass_batch (Fin 1)) []) NaN <> Fin 0 ->
      ext_le0 (nth j v NaN).
Proof.
  apply (compute_lnprob_orbit_nonpositive no_orbit fixture_state (zero_mass_batch (Fin 1)));
    try exact fixture_state_wf; try (simpl; exact I);
    try (unfold zero_mass_batch, n_cands; simpl; lia);
    try (simpl; repeat constructor; fail).
  all: first [ intros i j _ _; unfold orbit_model_at, no_orbit; simpl; split; exact I
             | simpl; repeat constructor; intro E; injection E; lra ].
Defined.
